(** * networkquality: the measurement engine of [network/quality.go]

    A shallow embedding of the Go package [network]: the latency sampler
    [measureIdleLatency], the two throughput phases [measureDownloadSpeed]
    and [measureUploadSpeed], and the orchestrator [RunQualityTest].

    - [time.Duration] and every [int]/[int64] is a [Z]; where the source
      adds into an [int64] the wrap-around is written out ([wrap64]).
    - [float64] is IEEE 754 binary64, taken from the standard library's
      [SpecFloat] at precision 53 and maximal exponent 1024.
    - The network, the clock and the cancellation signal are an explicit
      environment [Env]; every request the code hands to its [http.Client]
      and every sleep it performs is appended to an event log that the
      functions return next to their Go results. *)

From Stdlib Require Import ZArith List String Bool Lia.
From Stdlib Require Import Floats.SpecFloat.
Import ListNotations.

Local Open Scope string_scope.
Local Open Scope list_scope.
Local Open Scope Z_scope.

(** ** float64 *)

Definition float64 : Type := spec_float.

Module F64.

Definition prec : Z := 53.
Definition emax : Z := 1024.

(** [float64(n)] for an integer [n]: round to nearest, ties to even. *)
Definition of_Z (n : Z) : float64 := binary_normalize prec emax n 0 false.

Definition mul : float64 -> float64 -> float64 := SFmul prec emax.
Definition div : float64 -> float64 -> float64 := SFdiv prec emax.
Definition add : float64 -> float64 -> float64 := SFadd prec emax.
Definition ltb : float64 -> float64 -> bool := SFltb.
Definition leb : float64 -> float64 -> bool := SFleb.
Definition eqb : float64 -> float64 -> bool := SFeqb.

Definition zero : float64 := S754_zero false.

(** [math.Round]: the nearest integer, halves away from zero;
    [Round(±0) = ±0], [Round(±Inf) = ±Inf], [Round(NaN) = NaN].
    A finite [m * 2^e] with [e >= 0] is an integer already. *)
Definition Round (x : float64) : float64 :=
  match x with
  | S754_finite s m e =>
      if e <? 0 then
        let half := Z.shiftl 1 (- e - 1) in
        let n := Z.shiftr (Zpos m + half) (- e) in
        binary_normalize prec emax (cond_Zopp s n) 0 s
      else x
  | _ => x
  end.

(** A number that is not negative: [+0], [-0], a positive finite number
    or [+Inf]; a NaN is none of these. *)
Definition nonneg (x : float64) : bool :=
  match x with
  | S754_zero _ => true
  | S754_finite s _ _ => negb s
  | S754_infinity s => negb s
  | S754_nan => false
  end.

End F64.

(** ** time *)

(** [time.Duration]: an [int64] count of nanoseconds. *)
Definition Duration : Type := Z.

(** A reading of the monotonic clock, in nanoseconds. *)
Definition Time : Type := Z.

Definition Nanosecond : Duration := 1.
Definition Millisecond : Duration := 1000000.
Definition Second : Duration := 1000000000.

(** Two's-complement wrap-around of an [int64] sum. *)
Definition wrap64 (z : Z) : Z := (z + 2 ^ 63) mod 2 ^ 64 - 2 ^ 63.

(** [Duration.Milliseconds]: [int64(d) / 1e6], truncated. *)
Definition Milliseconds (d : Duration) : Z := Z.quot d 1000000.

(** [Duration.Seconds]:
    [sec := d / Second; nsec := d % Second; float64(sec) + float64(nsec)/1e9]. *)
Definition Seconds (d : Duration) : float64 :=
  let sec := Z.quot d Second in
  let nsec := Z.rem d Second in
  F64.add (F64.of_Z sec) (F64.div (F64.of_Z nsec) (F64.of_Z 1000000000)).

(** ** Data model *)

Record QualityResult : Type := {
  UplinkCapacity : float64;
  DownlinkCapacity : float64;
  IdleLatency : float64;
  Responsiveness : string;
  ResponsivenessMs : float64
}.

Record TestConfig : Type := {
  TestDuration : Duration;
  TestServers : list string;
  UploadServers : list string;
  UploadChunkSize : Z;
  NumConnections : Z
}.

(** Go's [error] values of this package: [fmt.Errorf(msg)] and
    [fmt.Errorf(msg + ": %w", cause)]. *)
Inductive error : Type :=
| Errorf (msg : string)
| ErrorfW (msg : string) (cause : error).

Definition DefaultConfig : TestConfig := {|
  TestDuration := 10 * Second;
  NumConnections := 4;
  TestServers :=
    [ "https://speed.cloudflare.com/__down?bytes=10000000";
      "https://www.google.com/generate_204" ];
  UploadServers :=
    [ "https://httpbin.org/post";
      "https://speed.cloudflare.com/__up?bytes=10000000" ];
  UploadChunkSize := 512 * 1024
|}.

(** ** The environment *)

(** What the code does to the outside world, one event per call it makes:
    [EvGet] and [EvPost] are calls of [client.Do] with the request the code
    built, [EvSleep] is a call of [time.Sleep]. None of the three clients
    sets [CheckRedirect], so a client that is answered with a redirect goes
    on to request the target by itself, inside [client.Do]; those requests
    are the client's, not calls of the code, and are not events. *)
Inductive Event : Type :=
| EvGet (url : string)
| EvPost (url : string) (contentLength : Z)
| EvSleep (d : Duration).


(** One iteration of the sampler's loop, as the network answers it. *)
Inductive ProbeOutcome : Type :=
| ProbeBadRequest                   (* http.NewRequestWithContext failed *)
| ProbeFailed                       (* client.Do failed *)
| ProbeOk (latency : Duration).     (* time.Since(start) after the response *)

(** One attempt of a download worker. *)
Inductive DownloadOutcome : Type :=
| DlBadRequest
| DlFailed
| DlBody (bytes : Z).               (* what io.Copy counted *)

(** One attempt of an upload worker. *)
Inductive UploadOutcome : Type :=
| UlBadRequest
| UlFailed
| UlStatus (status : Z).            (* resp.StatusCode *)

(** A worker's view of the run: the clock reading at its first loop head
    and, for its k-th attempt, how long the iteration takes (at least one
    nanosecond of the monotonic clock) and how it ends. *)
Record Script (O : Type) : Type := {
  firstNow : Time;
  attempt : nat -> positive * O
}.
Arguments firstNow {O} _.
Arguments attempt {O} _ _.

Record Env : Type := {
  (** the instant from which [ctx.Done()] is ready, if it ever is *)
  cancelAt : option Time;
  idleProbe : nat -> ProbeOutcome;
  loadedProbe : nat -> ProbeOutcome;
  (** download phase: [time.Now()] at its start, the workers, and
      [time.Since(startTime)] once [wg.Wait()] has returned *)
  dlStart : Time;
  dlWorker : nat -> Script DownloadOutcome;
  dlElapsed : Duration;
  (** upload phase, likewise *)
  ulStart : Time;
  ulWorker : nat -> Script UploadOutcome;
  ulElapsed : Duration
}.

Definition ctxDone (env : Env) (now : Time) : bool :=
  match cancelAt env with
  | Some t => t <=? now
  | None => false
  end.

(** ** measureIdleLatency *)

Definition numTests : nat := 10.

Record Sampler : Type := {
  totalLatency : Duration;
  successCount : Z;
  samplerLog : list Event
}.

(** The body of [for i := 0; i < numTests; i++]. Both [continue]s leave
    the iteration before the counters and before the sleep. *)
Definition probeStep (testURL : string) (o : ProbeOutcome) (st : Sampler)
  : Sampler :=
  match o with
  | ProbeBadRequest => st
  | ProbeFailed =>
      {| totalLatency := totalLatency st;
         successCount := successCount st;
         samplerLog := samplerLog st ++ [EvGet testURL] |}
  | ProbeOk latency =>
      {| totalLatency := wrap64 (totalLatency st + latency);
         successCount := successCount st + 1;
         samplerLog :=
           samplerLog st ++ [EvGet testURL; EvSleep (100 * Millisecond)] |}
  end.

Fixpoint probeLoop (probe : nat -> ProbeOutcome) (testURL : string)
  (i n : nat) (st : Sampler) : Sampler :=
  match n with
  | O => st
  | S n' => probeLoop probe testURL (S i) n' (probeStep testURL (probe i) st)
  end.

Definition measureIdleLatency (probe : nat -> ProbeOutcome) (testURL : string)
  : (float64 * option error) * list Event :=
  let st :=
    probeLoop probe testURL 0 numTests
      {| totalLatency := 0; successCount := 0; samplerLog := [] |} in
  if successCount st =? 0 then
    ((F64.zero, Some (Errorf "all latency tests failed")), samplerLog st)
  else
    let avgLatency := Z.quot (totalLatency st) (successCount st) in
    ((F64.of_Z (Milliseconds avgLatency), None), samplerLog st).

(** ** Transfer workers *)

(** A worker goroutine between two loop heads. [wBytes] is what it has
    added to the phase's shared [totalBytes]; the additions of all workers
    happen under the mutex, so the counter ends as their wrapped sum
    whatever the interleaving. *)
Record Worker : Type := {
  wNow : Time;
  wNext : nat;
  wBytes : Z;
  wLog : list Event;
  wExited : bool
}.

Definition spawn {O : Type} (sc : Script O) : Worker :=
  {| wNow := firstNow sc; wNext := 0; wBytes := 0; wLog := [];
     wExited := false |}.

Definition exit (w : Worker) : Worker :=
  {| wNow := wNow w; wNext := wNext w; wBytes := wBytes w; wLog := wLog w;
     wExited := true |}.

(** The end of one iteration: the clock has moved by [took], the worker
    has logged [evs] and added [bytes]. *)
Definition next (w : Worker) (took : positive) (evs : list Event) (bytes : Z)
  : Worker :=
  {| wNow := wNow w + Zpos took; wNext := S (wNext w);
     wBytes := wBytes w + bytes; wLog := wLog w ++ evs;
     wExited := false |}.

(** One pass through the download worker's
    [for time.Now().Before(deadline) { select ...; GET; io.Copy; add }]. *)
Definition downloadIter (env : Env) (deadline : Time) (downloadURL : string)
  (sc : Script DownloadOutcome) (w : Worker) : Worker :=
  if wExited w then w
  else if negb (wNow w <? deadline) then exit w
  else if ctxDone env (wNow w) then exit w
  else
    let '(took, o) := attempt sc (wNext w) in
    match o with
    | DlBadRequest => next w took [] 0
    | DlFailed => next w took [EvGet downloadURL] 0
    | DlBody bytes => next w took [EvGet downloadURL] bytes
    end.

(** One pass through the upload worker's loop. *)
Definition uploadIter (env : Env) (deadline : Time) (target : string)
  (chunkSize : Z) (sc : Script UploadOutcome) (w : Worker) : Worker :=
  if wExited w then w
  else if negb (wNow w <? deadline) then exit w
  else if ctxDone env (wNow w) then exit w
  else
    let '(took, o) := attempt sc (wNext w) in
    match o with
    | UlBadRequest => next w took [] 0
    | UlFailed => next w took [EvPost target chunkSize] 0
    | UlStatus status =>
        let statusOK := (200 <=? status) && (status <? 400) in
        if negb statusOK then next w took [EvPost target chunkSize] 0
        else next w took [EvPost target chunkSize] chunkSize
    end.

(** Runs a loop body until the worker has left the loop, at most
    [2 ^ depth] times. *)
Fixpoint iterate (depth : nat) (body : Worker -> Worker) (w : Worker)
  : Worker :=
  match depth with
  | O => body w
  | S d =>
      let w' := iterate d body w in
      if wExited w' then w' else iterate d body w'
  end.

(** Every iteration moves the clock by a nanosecond at least, so a worker
    starting at [now] passes its loop head at most [deadline - now + 1]
    times. *)
Definition loopDepth (deadline now : Time) : nat :=
  Z.to_nat (Z.log2_up (Z.max 0 (deadline - now) + 1)).

Definition runWorker {O : Type} (body : Script O -> Worker -> Worker)
  (deadline : Time) (sc : Script O) : Worker :=
  iterate (loopDepth deadline (firstNow sc)) (body sc) (spawn sc).

Definition sumBytes (ws : list Worker) : Z :=
  fold_right (fun w acc => wBytes w + acc) 0 ws.

Definition logs (ws : list Worker) : list Event :=
  List.concat (map wLog ws).

(** [for i := 0; i < n; i++]: the indices the loop visits. *)
Definition upto (n : Z) : list nat := seq 0 (Z.to_nat n).

(** [math.Round(mbps*1000) / 1000] for
    [mbps := (float64(totalBytes) * 8) / (duration * 1000000)]. *)
Definition megabits (totalBytes : Z) (duration : float64) : float64 :=
  let mbps :=
    F64.div (F64.mul (F64.of_Z totalBytes) (F64.of_Z 8))
            (F64.mul duration (F64.of_Z 1000000)) in
  F64.div (F64.Round (F64.mul mbps (F64.of_Z 1000))) (F64.of_Z 1000).

(** ** measureDownloadSpeed *)

Definition downloadDeadline (env : Env) (config : TestConfig) : Time :=
  dlStart env + TestDuration config.

(** The i-th goroutine of [for i := 0; i < config.NumConnections; i++]. *)
Definition downloadWorker (env : Env) (config : TestConfig)
  (downloadURL : string) (i : nat) : Worker :=
  let deadline := downloadDeadline env config in
  runWorker (downloadIter env deadline downloadURL) deadline (dlWorker env i).

Definition downloadWorkers (env : Env) (config : TestConfig)
  (downloadURL : string) : list Worker :=
  map (downloadWorker env config downloadURL) (upto (NumConnections config)).

(** The log lists each goroutine's events in one piece, in the order the
    goroutines are started: the loaded-latency sampler, then the workers. *)
Definition measureDownloadSpeed (env : Env) (config : TestConfig)
  (downloadURL latencyURL : string)
  : (float64 * float64 * option error) * list Event :=
  let '((latency, _), latencyLog) :=
    measureIdleLatency (loadedProbe env) latencyURL in
  let workers := downloadWorkers env config downloadURL in
  let totalBytes := wrap64 (sumBytes workers) in
  let duration := Seconds (dlElapsed env) in
  let loadedLatency := latency in
  ((megabits totalBytes duration, loadedLatency, None),
   EvSleep (2 * Second) :: latencyLog ++ logs workers).

(** ** measureUploadSpeed *)

Definition effectiveChunkSize (config : TestConfig) : Z :=
  if UploadChunkSize config <=? 0 then 512 * 1024 else UploadChunkSize config.

Definition uploadDeadline (env : Env) (config : TestConfig) : Time :=
  ulStart env + Z.quot (TestDuration config) 2.

Definition uploadTarget (config : TestConfig) (i : nat) : string :=
  nth (i mod List.length (UploadServers config))%nat (UploadServers config) "".

Definition uploadWorker (env : Env) (config : TestConfig) (i : nat)
  : Worker :=
  let deadline := uploadDeadline env config in
  runWorker
    (uploadIter env deadline (uploadTarget config i)
       (effectiveChunkSize config))
    deadline (ulWorker env i).

Definition uploadWorkers (env : Env) (config : TestConfig) : list Worker :=
  map (uploadWorker env config) (upto (NumConnections config)).

Definition measureUploadSpeed (env : Env) (config : TestConfig)
  : (float64 * option error) * list Event :=
  match UploadServers config with
  | [] => ((F64.zero, Some (Errorf "no upload servers configured")), [])
  | _ :: _ =>
      let workers := uploadWorkers env config in
      let totalBytes := wrap64 (sumBytes workers) in
      let duration := Seconds (ulElapsed env) in
      if F64.eqb duration F64.zero then
        ((F64.zero, Some (Errorf "upload duration was zero")), logs workers)
      else
        ((megabits totalBytes duration, None), logs workers)
  end.

(** ** RunQualityTest *)

(** The classification at the end of [RunQualityTest]. *)
Definition responsivenessOf (loadedLatency : float64) : string :=
  if F64.ltb loadedLatency (F64.of_Z 200) then "High"
  else if F64.ltb loadedLatency (F64.of_Z 1000) then "Medium"
  else "Low".

(** What [RunQualityTest] hands back: [(result, nil)] or [(nil, err)]. *)
Inductive Outcome : Type :=
| Ok (result : QualityResult)
| Err (err : error).

(** A [nil] configuration pointer is [None]. *)
Definition RunQualityTest (env : Env) (config : option TestConfig)
  : Outcome * list Event :=
  let config :=
    match config with
    | None => DefaultConfig
    | Some c => c
    end in
  if TestDuration config <=? 0 then
    (Err (Errorf "test duration must be positive"), [])
  else
    match TestServers config with
    | [] => (Err (Errorf "no download test servers configured"), [])
    | downloadURL :: others =>
        let latencyURL :=
          match others with
          | [] => downloadURL
          | second :: _ => second
          end in
        match measureIdleLatency (idleProbe env) latencyURL with
        | ((_, Some err), log1) =>
            (Err (ErrorfW "failed to measure idle latency" err), log1)
        | ((idleLatency, None), log1) =>
            match measureDownloadSpeed env config downloadURL latencyURL with
            | ((_, _, Some err), log2) =>
                (Err (ErrorfW "failed to measure download speed" err),
                 log1 ++ log2)
            | ((downloadMbps, loadedLatency, None), log2) =>
                match measureUploadSpeed env config with
                | ((_, Some err), log3) =>
                    (Err (ErrorfW "failed to measure upload speed" err),
                     log1 ++ log2 ++ log3)
                | ((uploadMbps, None), log3) =>
                    (Ok {| UplinkCapacity := uploadMbps;
                           DownlinkCapacity := downloadMbps;
                           IdleLatency := idleLatency;
                           Responsiveness := responsivenessOf loadedLatency;
                           ResponsivenessMs := loadedLatency |},
                     log1 ++ log2 ++ log3)
                end
            end
        end
    end.

(** ** Vocabulary of the statements *)

(** The spec's name for the sampler's only error. *)
Definition AllSamplesFailed : error := Errorf "all latency tests failed".

(** The elapsed times of the successful probes among [probe i ..
    probe (i+n-1)], in order. *)
Definition sampleOf (o : ProbeOutcome) : list Duration :=
  match o with
  | ProbeOk latency => [latency]
  | _ => []
  end.

Definition samples (probe : nat -> ProbeOutcome) (i n : nat) : list Duration :=
  flat_map (fun k => sampleOf (probe k)) (seq i n).

Definition sumZ (l : list Z) : Z := fold_right Z.add 0 l.

(** The arithmetic mean of the samples in whole milliseconds: the sum over
    the count, over 10^6 ns, rounded down. *)
Definition meanMillis (xs : list Duration) : Z :=
  sumZ xs / (Z.of_nat (List.length xs) * 1000000).

(** The events one iteration of the sampler leaves in the log. *)
Definition eventsOf (testURL : string) (o : ProbeOutcome) : list Event :=
  match o with
  | ProbeBadRequest => []
  | ProbeFailed => [EvGet testURL]
  | ProbeOk _ => [EvGet testURL; EvSleep (100 * Millisecond)]
  end.

(** No probe of the ten succeeds. *)
Definition allProbesFail (probe : nat -> ProbeOutcome) : Prop :=
  forall i latency, (i < numTests)%nat -> probe i <> ProbeOk latency.

(** The clock reading at which a worker's k-th attempt begins. *)
Fixpoint startOf {O : Type} (sc : Script O) (k : nat) : Time :=
  match k with
  | O => firstNow sc
  | S j => startOf sc j + Zpos (fst (attempt sc j))
  end.

(** The k-th loop head of a worker finds the loop condition true and the
    context not cancelled. *)
Definition live {O : Type} (env : Env) (deadline : Time) (sc : Script O)
  (k : nat) : bool :=
  (startOf sc k <? deadline) && negb (ctxDone env (startOf sc k)).


(** What an upload attempt is worth, and what it leaves in the log. *)
Definition uploadGain (chunkSize : Z) (o : UploadOutcome) : Z :=
  match o with
  | UlStatus status =>
      if (200 <=? status) && (status <? 400) then chunkSize else 0
  | _ => 0
  end.

Definition uploadEvents (target : string) (chunkSize : Z) (o : UploadOutcome)
  : list Event :=
  match o with
  | UlBadRequest => []
  | _ => [EvPost target chunkSize]
  end.

Definition downloadGain (o : DownloadOutcome) : Z :=
  match o with
  | DlBody bytes => bytes
  | _ => 0
  end.

Definition downloadEvents (downloadURL : string) (o : DownloadOutcome)
  : list Event :=
  match o with
  | DlBadRequest => []
  | _ => [EvGet downloadURL]
  end.

(** The two URLs [RunQualityTest] picks from [TestServers]. *)
Definition downloadURLOf (config : TestConfig) : string :=
  nth 0 (TestServers config) "".

Definition latencyURLOf (config : TestConfig) : string :=
  nth 1 (TestServers config) (downloadURLOf config).

(** What holds of a worker at each of its loop heads: its clock is the
    start of its next attempt, every attempt so far began at a live loop
    head, its bytes and its log are those of the attempts so far, and it
    has left the loop only at a loop head that is not live. [gain] and
    [events] say what one outcome is worth and what it logs. *)
Record loopInv {O : Type} (env : Env) (deadline : Time) (sc : Script O)
  (gain : O -> Z) (events : O -> list Event) (w : Worker) : Prop := {
  inv_now : wNow w = startOf sc (wNext w);
  inv_live : forall k, (k < wNext w)%nat -> live env deadline sc k = true;
  inv_bytes :
    wBytes w = sumZ (map (fun k => gain (snd (attempt sc k)))
                         (seq 0 (wNext w)));
  inv_log :
    wLog w = flat_map (fun k => events (snd (attempt sc k)))
                      (seq 0 (wNext w));
  inv_exit : wExited w = true -> live env deadline sc (wNext w) = false
}.

(** How many more times a worker can pass its loop head. *)
Definition fuelLeft (deadline : Time) (w : Worker) : Z :=
  if wExited w then 0 else Z.max 0 (deadline - wNow w) + 1.

(** The number of binary digits of a mantissa. *)
Definition digits (m : Z) : Z := Zdigits2 m.

(** A float of sign [s] that is an infinity or a finite [m * 2^e] with
    [2^(lo-1) <= m * 2^e]: neither a zero nor a NaN. *)
Definition sized (s : bool) (lo : Z) (x : float64) : Prop :=
  match x with
  | S754_finite s' m e => s' = s /\ lo <= digits (Zpos m) + e
  | S754_infinity s' => s' = s
  | _ => False
  end.

(** A float of sign [s] that is not a NaN. *)
Definition signed (s : bool) (x : float64) : Prop :=
  match x with
  | S754_zero s' | S754_infinity s' | S754_finite s' _ _ => s' = s
  | S754_nan => False
  end.

(** ** Sample environments *)

(** A quiet network: every probe answers in 7 ms, every download attempt
    takes 3 s and moves 10 MB, every upload attempt takes 2 s and is
    answered 200. *)
Definition steadyEnv : Env := {|
  cancelAt := None;
  idleProbe := fun _ => ProbeOk (7 * Millisecond);
  loadedProbe := fun _ => ProbeOk (10 * Millisecond);
  dlStart := 0;
  dlWorker := fun _ =>
    {| firstNow := 1000;
       attempt := fun _ => (3000000000%positive, DlBody 10000000) |};
  dlElapsed := 12 * Second;
  ulStart := 0;
  ulWorker := fun _ =>
    {| firstNow := 1000;
       attempt := fun _ => (2000000000%positive, UlStatus 200) |};
  ulElapsed := 6 * Second
|}.

(** The same network in a run whose phases are over within one tick of the
    clock: [time.Since(startTime)] reads zero at the end of both. *)
Definition frozenClockEnv : Env := {|
  cancelAt := None;
  idleProbe := idleProbe steadyEnv;
  loadedProbe := loadedProbe steadyEnv;
  dlStart := 0;
  dlWorker := dlWorker steadyEnv;
  dlElapsed := 0;
  ulStart := 0;
  ulWorker := ulWorker steadyEnv;
  ulElapsed := 0
|}.

(** The same network, except that no probe under load is answered. *)
Definition deafUnderLoadEnv : Env := {|
  cancelAt := None;
  idleProbe := idleProbe steadyEnv;
  loadedProbe := fun _ => ProbeFailed;
  dlStart := 0;
  dlWorker := dlWorker steadyEnv;
  dlElapsed := dlElapsed steadyEnv;
  ulStart := 0;
  ulWorker := ulWorker steadyEnv;
  ulElapsed := ulElapsed steadyEnv
|}.

(** A network on which the probes are answered and every transfer
    attempt fails after a second. *)
Definition unreachableEnv : Env := {|
  cancelAt := None;
  idleProbe := idleProbe steadyEnv;
  loadedProbe := loadedProbe steadyEnv;
  dlStart := 0;
  dlWorker := fun _ =>
    {| firstNow := 1000;
       attempt := fun _ => (1000000000%positive, DlFailed) |};
  dlElapsed := 10 * Second + 1000;
  ulStart := 0;
  ulWorker := fun _ =>
    {| firstNow := 1000;
       attempt := fun _ => (1000000000%positive, UlFailed) |};
  ulElapsed := 5 * Second + 1000
|}.

(** The default configuration with one list or number changed. *)
Definition noDownloadServers : TestConfig := {|
  TestDuration := TestDuration DefaultConfig;
  TestServers := [];
  UploadServers := UploadServers DefaultConfig;
  UploadChunkSize := UploadChunkSize DefaultConfig;
  NumConnections := NumConnections DefaultConfig
|}.

Definition noUploadServers : TestConfig := {|
  TestDuration := TestDuration DefaultConfig;
  TestServers := TestServers DefaultConfig;
  UploadServers := [];
  UploadChunkSize := UploadChunkSize DefaultConfig;
  NumConnections := NumConnections DefaultConfig
|}.

Definition noConnections : TestConfig := {|
  TestDuration := TestDuration DefaultConfig;
  TestServers := TestServers DefaultConfig;
  UploadServers := UploadServers DefaultConfig;
  UploadChunkSize := UploadChunkSize DefaultConfig;
  NumConnections := 0
|}.

(** An upload endpoint that answers 503 to each worker's first request and
    200 to the later ones. *)
Definition rejectedThenAccepted : Script UploadOutcome := {|
  firstNow := 1000;
  attempt := fun k =>
    (2000000000%positive,
     match k with
     | O => UlStatus 503
     | S _ => UlStatus 200
     end)
|}.

Definition flakyUploadEnv : Env := {|
  cancelAt := None;
  idleProbe := idleProbe steadyEnv;
  loadedProbe := loadedProbe steadyEnv;
  dlStart := 0;
  dlWorker := dlWorker steadyEnv;
  dlElapsed := dlElapsed steadyEnv;
  ulStart := 0;
  ulWorker := fun _ => rejectedThenAccepted;
  ulElapsed := ulElapsed steadyEnv
|}.

(** The first probe is refused, the others answer in 7 ms. *)
Definition firstProbeFails : nat -> ProbeOutcome :=
  fun i => match i with
           | O => ProbeFailed
           | S _ => ProbeOk (7 * Millisecond)
           end.

(** ** Vocabulary of the further statements *)

Definition isGet (e : Event) : bool :=
  match e with
  | EvGet _ => true
  | _ => false
  end.

Definition isPost (e : Event) : bool :=
  match e with
  | EvPost _ _ => true
  | _ => false
  end.

Definition isSleep (e : Event) : bool :=
  match e with
  | EvSleep _ => true
  | _ => false
  end.

(** The time an event spends asleep. *)
Definition sleepOf (e : Event) : Duration :=
  match e with
  | EvSleep d => d
  | _ => 0
  end.

(** A probe whose request could be built. *)
Definition built (o : ProbeOutcome) : bool :=
  match o with
  | ProbeBadRequest => false
  | _ => true
  end.

(** The calls a run of [config] may make: [client.Do] with a GET for the
    first or for the second download endpoint (the first again when there
    is no second) or with a POST of one chunk to an upload endpoint, and
    [time.Sleep] for the sampler's pause or for the warm-up before the
    loaded sample. *)
Definition allowedEvent (config : TestConfig) (e : Event) : Prop :=
  match e with
  | EvGet url => url = downloadURLOf config \/ url = latencyURLOf config
  | EvPost url n =>
      In url (UploadServers config) /\ n = effectiveChunkSize config /\ 0 < n
  | EvSleep d => d = 100 * Millisecond \/ d = 2 * Second
  end.

(** An upload attempt whose response status is in [200, 400). *)
Definition accepted (o : UploadOutcome) : bool :=
  match o with
  | UlStatus status => (200 <=? status) && (status <? 400)
  | _ => false
  end.

(** How many of a worker's first [n] upload attempts are accepted. *)
Definition acceptedAmong (sc : Script UploadOutcome) (n : nat) : nat :=
  List.length (filter (fun k => accepted (snd (attempt sc k))) (seq 0 n)).

Definition sumNat (l : list nat) : nat := fold_right Nat.add 0%nat l.

(** The configuration [RunQualityTest] works with. *)
Definition effectiveConfig (config : option TestConfig) : TestConfig :=
  match config with
  | None => DefaultConfig
  | Some c => c
  end.

(** ** float64, continued *)

Definition F64sub : float64 -> float64 -> float64 := SFsub F64.prec F64.emax.

(** Go's conversion [int(x)] of a float64: the fraction is dropped; when
    the result does not fit an [int64], or [x] is an infinity or a NaN, the
    language leaves the value to the implementation: [other x]. *)
Definition intOf (other : float64 -> Z) (x : float64) : Z :=
  match x with
  | S754_zero _ => 0
  | S754_finite s m e =>
      let n := if 0 <=? e then Zpos m * 2 ^ e else Z.shiftr (Zpos m) (- e) in
      let z := if s then - n else n in
      if (- 2 ^ 63 <=? z) && (z <? 2 ^ 63) then z else other x
  | _ => other x
  end.

(** ** The command line: main.go *)

Module Cli.

(** The colours of [go-colortext] the program uses. *)
Inductive Color : Type :=
| Red | Green | Yellow | Blue | Magenta | Cyan | White.

(** The configuration [main] builds from [-d], [-c] and [-q]:
  the [-d] seconds as a [time.Duration] (an int64 product, which wraps),
  replaced by five seconds for a quick test, and the default configuration with its
  duration and its number of connections overwritten. *)
Definition mainConfig (duration connections : Z) (quick : bool)
: TestConfig :=
let testDuration := wrap64 (duration * Second) in
let testDuration := if quick then 5 * Second else testDuration in
{| TestDuration := testDuration;
   TestServers := TestServers DefaultConfig;
   UploadServers := UploadServers DefaultConfig;
   UploadChunkSize := UploadChunkSize DefaultConfig;
   NumConnections := connections |}.

(** The points [calculateOverallQuality] gives for the three metrics. *)
Definition downlinkScore (result : QualityResult) (score : Z) : Z :=
if F64.ltb (F64.of_Z 50) (DownlinkCapacity result) then score + 3
else if F64.ltb (F64.of_Z 25) (DownlinkCapacity result) then score + 2
else if F64.ltb (F64.of_Z 10) (DownlinkCapacity result) then score + 1
else score.

Definition uplinkScore (result : QualityResult) (score : Z) : Z :=
if F64.ltb (F64.of_Z 20) (UplinkCapacity result) then score + 3
else if F64.ltb (F64.of_Z 10) (UplinkCapacity result) then score + 2
else if F64.ltb (F64.of_Z 5) (UplinkCapacity result) then score + 1
else score.

Definition latencyScore (result : QualityResult) (score : Z) : Z :=
if F64.ltb (IdleLatency result) (F64.of_Z 20) then score + 3
else if F64.ltb (IdleLatency result) (F64.of_Z 50) then score + 2
else if F64.ltb (IdleLatency result) (F64.of_Z 100) then score + 1
else score.

Definition qualityScore (result : QualityResult) : Z :=
latencyScore result (uplinkScore result (downlinkScore result 0)).

Definition calculateOverallQuality (result : QualityResult)
: string * Color :=
let score := qualityScore result in
if 8 <=? score then ("⭐ Excellent", Green)
else if 6 <=? score then ("✅ Good", Cyan)
else if 4 <=? score then ("⚠️  Fair", Yellow)
else ("❌ Poor", Red).

End Cli.

(** ** The command line without colours: the second main package *)

Module Plain.

Definition calculateOverallQuality (result : QualityResult) : string :=
let score := 0 in
let score :=
  if F64.ltb (F64.of_Z 50) (DownlinkCapacity result) then score + 3
  else if F64.ltb (F64.of_Z 25) (DownlinkCapacity result) then score + 2
  else if F64.ltb (F64.of_Z 10) (DownlinkCapacity result) then score + 1
  else score in
let score :=
  if F64.ltb (F64.of_Z 20) (UplinkCapacity result) then score + 3
  else if F64.ltb (F64.of_Z 10) (UplinkCapacity result) then score + 2
  else if F64.ltb (F64.of_Z 5) (UplinkCapacity result) then score + 1
  else score in
let score :=
  if F64.ltb (IdleLatency result) (F64.of_Z 20) then score + 3
  else if F64.ltb (IdleLatency result) (F64.of_Z 50) then score + 2
  else if F64.ltb (IdleLatency result) (F64.of_Z 100) then score + 1
  else score in
if 8 <=? score then "⭐ Excellent"
else if 6 <=? score then "✅ Good"
else if 4 <=? score then "⚠️  Fair"
else "❌ Poor".

Definition barLength : Z := 20.

(** [for i := 0; i < barLength; i++ { if i < filled { bar += "█" } else
  { bar += "░" } }]. *)
Definition barLoop (filled : Z) (bar : string) : string :=
fold_left
  (fun (bar : string) (i : nat) =>
     if Z.of_nat i <? filled then String.append bar "█"
     else String.append bar "░")
  (upto barLength) bar.

Section Bars.

(** What [int] makes of a float64 it cannot represent, and
  [fmt.Sprintf("%.2f", x)]. *)
Variable other : float64 -> Z.
Variable sprintf2 : float64 -> string.

Definition getPerformanceBar (value maxValue : float64) : string :=
let filled :=
  intOf other (F64.mul (F64.div value maxValue) (F64.of_Z barLength)) in
let filled := if barLength <? filled then barLength else filled in
let bar := barLoop filled "[" in
String.append bar
  (String.append "] " (String.append (sprintf2 value) " Mbps")).

Definition getLatencyBar (latency : float64) : string :=
let maxLatency := F64.of_Z 200 in
let filled :=
  intOf other
    (F64.mul (F64sub (F64.of_Z 1) (F64.div latency maxLatency))
             (F64.of_Z barLength)) in
let filled := if filled <? 0 then 0 else filled in
let filled := if barLength <? filled then barLength else filled in
let bar := barLoop filled "[" in
String.append bar
  (String.append "] " (String.append (sprintf2 latency) " ms")).

End Bars.

(** A bar of [k] full cells out of twenty. *)
Definition cells (k : nat) : string :=
String.concat "" (repeat "█" k ++ repeat "░" (20 - k)).

End Plain.

(** ** More sample environments *)

(** The quiet network with the context cancelled at 3.5 s on the clock. *)
Definition cancelledEnv : Env := {|
  cancelAt := Some 3500000000;
  idleProbe := idleProbe steadyEnv;
  loadedProbe := loadedProbe steadyEnv;
  dlStart := 0;
  dlWorker := dlWorker steadyEnv;
  dlElapsed := dlElapsed steadyEnv;
  ulStart := 0;
  ulWorker := ulWorker steadyEnv;
  ulElapsed := ulElapsed steadyEnv
|}.

(** A result with no throughput either way and a latency of 7 ms. *)
Definition stalledResult : QualityResult := {|
  UplinkCapacity := F64.zero;
  DownlinkCapacity := F64.zero;
  IdleLatency := F64.of_Z 7;
  Responsiveness := "High";
  ResponsivenessMs := F64.of_Z 10
|}.

(** A fibre line: 940 down, 880 up, 3 ms. *)
Definition fibreResult : QualityResult := {|
  UplinkCapacity := F64.of_Z 880;
  DownlinkCapacity := F64.of_Z 940;
  IdleLatency := F64.of_Z 3;
  Responsiveness := "High";
  ResponsivenessMs := F64.of_Z 12
|}.

(** * Properties *)

(** ** Magnitudes of float64 *)

Lemma digits2_pos_size (p : positive) : digits2_pos p = Pos.size p.
Proof. induction p; cbn; congruence. Qed.

Lemma digits_log2 (m : Z) : 0 < m -> digits m = Z.log2 m + 1.
Proof.
  destruct m as [|p|p]; try lia. intros _. unfold digits, Zdigits2.
  rewrite digits2_pos_size. destruct p; cbn; lia.
Qed.

Lemma digits_bounds (m : Z) : 0 < m -> 2 ^ (digits m - 1) <= m < 2 ^ digits m.
Proof.
  intros Hm. rewrite digits_log2 by assumption.
  replace (Z.log2 m + 1 - 1) with (Z.log2 m) by lia.
  replace (Z.log2 m + 1) with (Z.succ (Z.log2 m)) by lia.
  now apply Z.log2_spec.
Qed.

Lemma digits_pos (m : Z) : 0 < m -> 0 < digits m.
Proof.
  intros Hm. rewrite digits_log2 by assumption.
  pose proof (Z.log2_nonneg m). lia.
Qed.

Lemma digits_mono (a b : Z) : 0 < a -> a <= b -> digits a <= digits b.
Proof.
  intros Ha Hab. rewrite !digits_log2 by lia.
  pose proof (Z.log2_le_mono a b Hab). lia.
Qed.

Lemma digits_div_pow2 (m n : Z) :
  0 < m -> 0 <= n < digits m ->
  0 < m / 2 ^ n /\ digits (m / 2 ^ n) = digits m - n.
Proof.
  intros Hm Hn. rewrite digits_log2 in Hn by assumption.
  pose proof (Z.log2_shiftr m n Hm) as Hs.
  rewrite Z.shiftr_div_pow2 in Hs by lia.
  rewrite Z.max_r in Hs by lia.
  assert (Hq : 0 < m / 2 ^ n).
  { apply Z.div_str_pos. split; [apply Z.pow_pos_nonneg; lia|].
    pose proof (Z.log2_spec m Hm) as [Hlo _].
    eapply Z.le_trans; [|exact Hlo]. apply Z.pow_le_mono_r; lia. }
  split; [exact Hq|]. rewrite !digits_log2 by assumption. lia.
Qed.

Lemma shr_1_m (r : shr_record) :
  0 <= shr_m r -> shr_m (shr_1 r) = shr_m r / 2.
Proof.
  destruct r as [m b s]. cbn [shr_m]. intros Hm.
  rewrite <- Z.div2_div.
  destruct m as [|[p|p|]|p]; cbn; try reflexivity; lia.
Qed.

Lemma pow2_xO (p : positive) : 2 ^ Zpos p~0 = 2 ^ Zpos p * 2 ^ Zpos p.
Proof. rewrite <- Z.pow_add_r by lia. f_equal. lia. Qed.

Lemma pow2_xI (p : positive) : 2 ^ Zpos p~1 = 2 * (2 ^ Zpos p * 2 ^ Zpos p).
Proof.
  rewrite <- Z.pow_add_r, <- Z.pow_succ_r by lia. f_equal. lia.
Qed.

Lemma iter_shr_1_m (p : positive) (r : shr_record) :
  0 <= shr_m r -> shr_m (iter_pos shr_1 p r) = shr_m r / 2 ^ Zpos p.
Proof.
  revert r. induction p as [p IH|p IH|]; intros r Hr; cbn [iter_pos].
  - assert (H1 : 0 <= shr_m (shr_1 r))
      by (rewrite shr_1_m by assumption; apply Z.div_pos; lia).
    assert (H2 : 0 <= shr_m (iter_pos shr_1 p (shr_1 r)))
      by (rewrite IH by assumption; apply Z.div_pos; lia).
    rewrite IH, IH, shr_1_m by assumption.
    rewrite !Z.div_div by lia. now rewrite pow2_xI.
  - assert (H2 : 0 <= shr_m (iter_pos shr_1 p r))
      by (rewrite IH by assumption; apply Z.div_pos; lia).
    rewrite IH, IH by assumption.
    rewrite Z.div_div by lia. now rewrite pow2_xO.
  - rewrite shr_1_m by assumption. reflexivity.
Qed.

Lemma shr_record_of_loc_m (m : Z) (l : location) :
  shr_m (shr_record_of_loc m l) = m.
Proof. destruct l as [|[| |]]; reflexivity. Qed.

(** Shifting to the canonical exponent keeps the number of digits before
    the point and leaves at most 53 digits of mantissa. *)
Lemma shr_fexp_sized (m e : Z) (l : location) :
  0 < m -> -1021 <= digits m + e ->
  let r := fst (shr_fexp F64.prec F64.emax m e l) in
  let e' := snd (shr_fexp F64.prec F64.emax m e l) in
  0 < shr_m r
  /\ digits (shr_m r) + e' = digits m + e
  /\ digits (shr_m r) = Z.min (digits m) 53.
Proof.
  intros Hm Hmag. unfold shr_fexp, fexp, emin, F64.prec, F64.emax.
  fold (digits m).
  rewrite Z.max_l by lia.
  replace (digits m + e - 53 - e) with (digits m - 53) by lia.
  unfold shr. destruct (digits m - 53) as [|p|p] eqn:En; cbn [fst snd].
  - rewrite shr_record_of_loc_m. lia.
  - rewrite iter_shr_1_m by (rewrite shr_record_of_loc_m; lia).
    rewrite shr_record_of_loc_m.
    destruct (digits_div_pow2 m (Zpos p)) as [Hq Hd]; [assumption|lia|].
    lia.
  - rewrite shr_record_of_loc_m. lia.
Qed.

Lemma round_nearest_even_bounds (m : Z) (l : location) :
  m <= round_nearest_even m l <= m + 1.
Proof.
  destruct l as [|[| |]]; cbn; try lia. destruct (Z.even m); lia.
Qed.

Lemma digits_succ_le (m : Z) : 0 < m -> digits (m + 1) <= digits m + 1.
Proof.
  intros Hm. pose proof (digits_bounds m Hm) as [_ Hhi].
  rewrite (digits_log2 (m + 1)) by lia.
  assert (Z.log2 (m + 1) < digits m + 1); [|lia].
  apply Z.log2_lt_pow2; [lia|].
  rewrite Z.pow_add_r by (pose proof (digits_pos m Hm); lia). lia.
Qed.

(** Rounding a positive mantissa of normal size gives a number of the
    expected sign that is at least as large in magnitude. *)
Lemma binary_round_aux_sized (sx : bool) (mx ex : Z) (lx : location) :
  0 < mx -> -1021 <= digits mx + ex ->
  sized sx (digits mx + ex) (binary_round_aux F64.prec F64.emax sx mx ex lx).
Proof.
  intros Hm Hmag. unfold binary_round_aux.
  pose proof (shr_fexp_sized mx ex lx Hm Hmag) as H1. cbv zeta in H1.
  destruct (shr_fexp F64.prec F64.emax mx ex lx) as [r1 e1].
  cbn [fst snd] in H1. destruct H1 as (Hr1 & Hmag1 & Hd1).
  set (m2 := round_nearest_even (shr_m r1) (loc_of_shr_record r1)).
  pose proof (round_nearest_even_bounds (shr_m r1) (loc_of_shr_record r1))
    as Hm2. fold m2 in Hm2.
  assert (Hm2pos : 0 < m2) by lia.
  assert (Hd2 : digits (shr_m r1) <= digits m2)
    by (apply digits_mono; lia).
  pose proof (shr_fexp_sized m2 e1 loc_Exact Hm2pos) as H2. cbv zeta in H2.
  destruct (shr_fexp F64.prec F64.emax m2 e1 loc_Exact) as [r2 e2].
  cbn [fst snd] in H2. destruct H2 as (Hr2 & Hmag2 & _); [lia|].
  destruct (shr_m r2) as [|m3|m3] eqn:E3; try lia.
  destruct (e2 <=? F64.emax - F64.prec); cbn [sized]; [|reflexivity].
  split; [reflexivity|]. lia.
Qed.

Lemma sized_weaken (s : bool) (a b : Z) (x : float64) :
  sized s a x -> b <= a -> sized s b x.
Proof.
  destruct x as [| | |s' m e]; cbn; try tauto. intros [-> H] Hb. split; [reflexivity | lia].
Qed.

Lemma digits_xO (m : positive) : digits (Zpos m~0) = digits (Zpos m) + 1.
Proof. unfold digits, Zdigits2. cbn [digits2_pos]. lia. Qed.

Lemma digits_iter_xO (m d : positive) :
  digits (Zpos (Pos.iter xO m d)) = digits (Zpos m) + Zpos d.
Proof.
  induction d as [|d IH] using Pos.peano_ind.
  - cbn [Pos.iter]. apply digits_xO.
  - rewrite Pos.iter_succ, digits_xO, IH. lia.
Qed.

Lemma shl_align_sized (mx : positive) (ex ex' : Z) :
  digits (Zpos (fst (shl_align mx ex ex'))) + snd (shl_align mx ex ex')
  = digits (Zpos mx) + ex.
Proof.
  unfold shl_align. destruct (ex' - ex) as [|d|d] eqn:E; cbn [fst snd];
    try reflexivity.
  rewrite digits_iter_xO. lia.
Qed.

Lemma shl_align_ge (mx : positive) (ex ex' : Z) :
  ex' <= ex -> snd (shl_align mx ex ex') = ex'.
Proof.
  intros H. unfold shl_align.
  destruct (ex' - ex) as [|d|d] eqn:E; cbn [snd]; lia.
Qed.

Lemma binary_round_sized (sx : bool) (mx : positive) (ex : Z) :
  -1021 <= digits (Zpos mx) + ex ->
  sized sx (digits (Zpos mx) + ex) (binary_round F64.prec F64.emax sx mx ex).
Proof.
  intros Hmag. unfold binary_round.
  pose proof (shl_align_sized mx ex
                (fexp F64.prec F64.emax (Zpos (digits2_pos mx) + ex))) as Ha.
  destruct (shl_align mx ex _) as [mz ez]. cbn [fst snd] in Ha.
  rewrite <- Ha. apply binary_round_aux_sized; lia.
Qed.

(** [float64(n)] of a positive integer is positive. *)
Lemma of_Z_sized (n : Z) : 0 < n -> sized false 1 (F64.of_Z n).
Proof.
  intros Hn. destruct n as [|p|p]; try lia.
  unfold F64.of_Z, binary_normalize.
  pose proof (digits_pos (Zpos p) Hn).
  eapply sized_weaken; [apply binary_round_sized|]; lia.
Qed.

Lemma digits_mul (a b : positive) :
  digits (Zpos a) + digits (Zpos b) - 1 <= digits (Zpos (a * b)).
Proof.
  rewrite Pos2Z.inj_mul, !digits_log2 by lia.
  pose proof (Z.log2_mul_below (Zpos a) (Zpos b)). lia.
Qed.

Lemma mul_sized (a : Z) (x : float64) (my : positive) (ey : Z) :
  sized false a x ->
  -1021 <= a + (digits (Zpos my) + ey) - 1 ->
  sized false (a + (digits (Zpos my) + ey) - 1)
        (F64.mul x (S754_finite false my ey)).
Proof.
  destruct x as [| sx | |sx mx ex]; cbn [sized]; try tauto.
  - intros -> _. reflexivity.
  - intros [-> Hx] Hmag. unfold F64.mul, SFmul. cbn [xorb].
    pose proof (digits_mul mx my) as Hd.
    eapply sized_weaken; [apply binary_round_aux_sized|]; lia.
Qed.

Lemma div_quotient_digits (m1 m2 s : Z) :
  0 < m1 -> 0 < m2 -> 0 <= s -> digits m2 - digits m1 + 1 <= s ->
  0 < m1 * 2 ^ s / m2
  /\ digits m1 + s - digits m2 <= digits (m1 * 2 ^ s / m2).
Proof.
  intros H1 H2 Hs Hbig.
  pose proof (digits_bounds m1 H1) as [Hlo1 _].
  pose proof (digits_bounds m2 H2) as [_ Hhi2].
  pose proof (digits_pos m1 H1). pose proof (digits_pos m2 H2).
  set (k := digits m1 - 1 + s - digits m2) in *.
  assert (Hk : 0 <= k) by (subst k; lia).
  assert (Hq : 2 ^ k <= m1 * 2 ^ s / m2).
  { apply Z.div_le_lower_bound; [lia|].
    assert (Hp : 2 ^ k * 2 ^ digits m2 = 2 ^ (digits m1 - 1) * 2 ^ s).
    { rewrite <- !Z.pow_add_r by lia. f_equal. subst k. lia. }
    assert (0 < 2 ^ k) by (apply Z.pow_pos_nonneg; lia).
    assert (0 < 2 ^ s) by (apply Z.pow_pos_nonneg; lia).
    nia. }
  assert (0 < 2 ^ k) by (apply Z.pow_pos_nonneg; lia).
  split; [lia|].
  rewrite (digits_log2 (m1 * 2 ^ s / m2)) by lia.
  assert (k <= Z.log2 (m1 * 2 ^ s / m2)); [|subst k; lia].
  rewrite <- (Z.log2_pow2 k) by lia. apply Z.log2_le_mono. exact Hq.
Qed.

Lemma div_sized (a : Z) (x : float64) (my : positive) (ey : Z) :
  sized false a x ->
  -1021 <= a - (digits (Zpos my) + ey) ->
  sized false (a - (digits (Zpos my) + ey))
        (F64.div x (S754_finite false my ey)).
Proof.
  destruct x as [| sx | |sx mx ex]; cbn [sized]; try tauto.
  - intros -> _. reflexivity.
  - intros [-> Hx] Hmag. unfold F64.div, SFdiv, SFdiv_core_binary.
    cbn [xorb]. fold (digits (Zpos mx)) (digits (Zpos my)).
    set (d1 := digits (Zpos mx)) in *. set (d2 := digits (Zpos my)) in *.
    unfold fexp, emin, F64.prec, F64.emax.
    rewrite (Z.max_l (d1 + ex - (d2 + ey) - 53)) by lia.
    set (e' := Z.min (d1 + ex - (d2 + ey) - 53) (ex - ey)).
    set (s := ex - ey - e').
    assert (Hs : 0 <= s) by (subst s e'; lia).
    assert (Hbig : d2 - d1 + 1 <= s) by (subst s e'; lia).
    assert (Hm' : match s with
                  | Z0 => Zpos mx
                  | Zpos _ => Z.shiftl (Zpos mx) s
                  | Zneg _ => 0
                  end = Zpos mx * 2 ^ s).
    { destruct s as [|p|p] eqn:Es; [cbn; lia | | lia].
      rewrite Z.shiftl_mul_pow2 by lia. reflexivity. }
    rewrite Hm'.
    destruct (div_quotient_digits (Zpos mx) (Zpos my) s) as [Hq Hd];
      try lia; try assumption.
    unfold Z.div in Hq, Hd.
    destruct (Z.div_eucl (Zpos mx * 2 ^ s) (Zpos my)) as [q r].
    eapply sized_weaken; [apply binary_round_aux_sized|].
    + exact Hq.
    + fold d1 d2 in Hd. subst s e'. lia.
    + fold d1 d2 in Hd. subst s e'. lia.
Qed.

Lemma add_sized (a : Z) (x y : float64) :
  sized false a x -> -1021 <= a ->
  y = S754_zero false \/ (exists b, sized false b y) ->
  sized false a (F64.add x y).
Proof.
  intros Hx Ha [->|[b Hy]].
  - destruct x as [| sx | |sx mx ex]; cbn [sized] in Hx; try tauto; exact Hx.
  - destruct x as [| sx | |sx mx ex], y as [| sy | |sy my ey];
      cbn [sized] in Hx, Hy; try contradiction.
    + subst. exact eq_refl.
    + destruct Hy as [-> _]. subst. exact eq_refl.
    + destruct Hx as [-> _]. subst. exact eq_refl.
    + destruct Hx as [-> Hx], Hy as [-> Hy].
      unfold F64.add, SFadd. cbn [cond_Zopp].
      set (ez := Z.min ex ey).
      pose proof (shl_align_sized mx ex ez) as Hax.
      rewrite shl_align_ge in Hax by (subst ez; lia).
      set (mx' := fst (shl_align mx ex ez)) in *.
      set (my' := fst (shl_align my ey ez)) in *.
      change (Zpos mx' + Zpos my') with (Zpos (mx' + my')).
      unfold binary_normalize.
      assert (Hd : digits (Zpos mx') <= digits (Zpos (mx' + my')))
        by (apply digits_mono; lia).
      eapply sized_weaken; [apply binary_round_sized|]; lia.
Qed.

Lemma add_zero_l (y : float64) (b : Z) :
  sized false b y -> F64.add (S754_zero false) y = y.
Proof. destruct y; cbn; tauto. Qed.

(** A positive duration is a positive number of seconds. *)
Lemma Seconds_sized (d : Duration) : 0 < d -> sized false (-29) (Seconds d).
Proof.
  intros Hd. unfold Seconds, Second.
  assert (Hq : 0 <= Z.quot d 1000000000) by (apply Z.quot_pos; lia).
  assert (Hr : 0 <= Z.rem d 1000000000)
    by (apply Z.rem_nonneg; lia).
  pose proof (Z.quot_rem' d 1000000000) as Hdr.
  change (F64.of_Z 1000000000)
    with (S754_finite false 8388608000000000 (-23)).
  destruct (Z.eq_dec (Z.rem d 1000000000) 0) as [Hz|Hnz].
  - rewrite Hz. change (F64.div (F64.of_Z 0) _) with (S754_zero false).
    apply add_sized; [|lia|left; reflexivity].
    eapply sized_weaken; [apply of_Z_sized|]; lia.
  - assert (Hn : sized false (-29)
                   (F64.div (F64.of_Z (Z.rem d 1000000000))
                            (S754_finite false 8388608000000000 (-23)))).
    { change (-29) with (1 - (digits 8388608000000000 + -23)).
      apply div_sized; [apply of_Z_sized; lia|].
      change (digits 8388608000000000) with 53. lia. }
    destruct (Z.eq_dec (Z.quot d 1000000000) 0) as [Hz|Hnz'].
    + rewrite Hz. change (F64.of_Z 0) with (S754_zero false).
      now rewrite (add_zero_l _ _ Hn).
    + eapply sized_weaken; [apply add_sized|].
      * apply of_Z_sized. lia.
      * lia.
      * right. eexists. exact Hn.
      * lia.
Qed.

Lemma sized_eqb_zero (a : Z) (x : float64) :
  sized false a x -> F64.eqb x F64.zero = false.
Proof.
  destruct x as [| sx | |sx mx ex]; cbn [sized]; try tauto.
  - intros ->. reflexivity.
  - intros [-> _]. reflexivity.
Qed.

Lemma div_zero_sized (a : Z) (y : float64) :
  sized false a y -> F64.div (S754_zero false) y = S754_zero false.
Proof.
  destruct y as [| sy | |sy my ey]; cbn [sized]; try tauto.
  - intros ->. reflexivity.
  - intros [-> _]. reflexivity.
Qed.

(** No bytes over a positive time is [+0] megabits per second. *)
Lemma megabits_zero (d : Duration) :
  0 < d -> megabits 0 (Seconds d) = F64.zero.
Proof.
  intros Hd. unfold megabits.
  change (F64.mul (F64.of_Z 0) (F64.of_Z 8)) with (S754_zero false).
  change (F64.of_Z 1000000) with (S754_finite false 8589934592000000 (-33)).
  assert (Hden : sized false (-10)
                   (F64.mul (Seconds d)
                      (S754_finite false 8589934592000000 (-33)))).
  { change (-10) with (-29 + (digits 8589934592000000 + -33) - 1).
    apply mul_sized; [now apply Seconds_sized|].
    change (digits 8589934592000000) with 53. lia. }
  rewrite (div_zero_sized _ _ Hden). reflexivity.
Qed.

(** ** Signs of float64 results *)

Lemma shr_m_nonneg (r : shr_record) (e n : Z) :
  0 <= shr_m r -> 0 <= shr_m (fst (shr r e n)).
Proof.
  intros Hr. unfold shr. destruct n as [|p|p]; cbn [fst]; try assumption.
  rewrite iter_shr_1_m by assumption. apply Z.div_pos; lia.
Qed.

Lemma shr_fexp_nonneg (m e : Z) (l : location) :
  0 <= m -> 0 <= shr_m (fst (shr_fexp F64.prec F64.emax m e l)).
Proof.
  intros Hm. unfold shr_fexp. apply shr_m_nonneg.
  now rewrite shr_record_of_loc_m.
Qed.

(** Rounding a non-negative mantissa never gives a NaN and keeps the
    sign. *)
Lemma binary_round_aux_signed (sx : bool) (mx ex : Z) (lx : location) :
  0 <= mx -> signed sx (binary_round_aux F64.prec F64.emax sx mx ex lx).
Proof.
  intros Hm. unfold binary_round_aux.
  pose proof (shr_fexp_nonneg mx ex lx Hm) as H1.
  destruct (shr_fexp F64.prec F64.emax mx ex lx) as [r1 e1]. cbn [fst] in H1.
  pose proof (round_nearest_even_bounds (shr_m r1) (loc_of_shr_record r1))
    as Hm2.
  set (m2 := round_nearest_even (shr_m r1) (loc_of_shr_record r1)) in *.
  assert (H2 : 0 <= shr_m (fst (shr_fexp F64.prec F64.emax m2 e1 loc_Exact)))
    by (apply shr_fexp_nonneg; lia).
  destruct (shr_fexp F64.prec F64.emax m2 e1 loc_Exact) as [r2 e2].
  cbn [fst] in H2.
  destruct (shr_m r2) as [|m3|m3]; [reflexivity | | lia].
  destruct (e2 <=? F64.emax - F64.prec); reflexivity.
Qed.

Lemma sized_signed (s : bool) (a : Z) (x : float64) :
  sized s a x -> signed s x.
Proof. destruct x; cbn; tauto. Qed.

Lemma signed_nonneg (x : float64) : signed false x -> F64.nonneg x = true.
Proof. destruct x; cbn; try tauto; intros ->; reflexivity. Qed.

Lemma mul_signed (x : float64) (my : positive) (ey : Z) :
  signed false x -> signed false (F64.mul x (S754_finite false my ey)).
Proof.
  destruct x as [sx|sx| |sx mx ex]; cbn [signed]; try tauto;
    intros ->; try reflexivity.
  unfold F64.mul, SFmul. cbn [xorb]. apply binary_round_aux_signed. lia.
Qed.

Lemma div_signed (x : float64) (my : positive) (ey : Z) :
  signed false x -> signed false (F64.div x (S754_finite false my ey)).
Proof.
  destruct x as [sx|sx| |sx mx ex]; cbn [signed]; try tauto;
    intros ->; try reflexivity.
  unfold F64.div, SFdiv, SFdiv_core_binary. cbn [xorb].
  set (e' := Z.min _ _). set (s := ex - ey - e').
  assert (Hs : 0 <= s) by (subst s e'; lia).
  set (m' := match s with
             | Z0 => Zpos mx
             | Zpos _ => Z.shiftl (Zpos mx) s
             | Zneg _ => 0
             end).
  assert (Hm' : 0 <= m').
  { subst m'. destruct s as [|p|p]; try lia.
    rewrite Z.shiftl_mul_pow2 by lia.
    assert (0 < 2 ^ Zpos p) by (apply Z.pow_pos_nonneg; lia). nia. }
  assert (Hq : 0 <= m' / Zpos my) by (apply Z.div_pos; lia).
  unfold Z.div in Hq. destruct (Z.div_eucl m' (Zpos my)) as [q r].
  now apply binary_round_aux_signed.
Qed.

(** A quotient by an infinity or by a finite non-zero number of the same
    sign. *)
Lemma div_by_sized (a : Z) (mx : positive) (ex : Z) (y : float64) :
  sized false a y -> signed false (F64.div (S754_finite false mx ex) y).
Proof.
  destruct y as [sy|sy| |sy my ey]; cbn [sized]; intros Hy;
    try contradiction.
  - subst sy. reflexivity.
  - destruct Hy as [-> _]. apply div_signed. reflexivity.
Qed.

Lemma Round_signed (x : float64) : signed false x -> signed false (F64.Round x).
Proof.
  destruct x as [sx|sx| |sx mx ex]; cbn [signed F64.Round]; try tauto.
  intros ->. destruct (ex <? 0); [|reflexivity]. cbn [cond_Zopp].
  set (n := Z.shiftr _ _).
  assert (Hn : 0 <= n).
  { subst n. apply Z.shiftr_nonneg.
    assert (0 <= Z.shiftl 1 (- ex - 1)) by (apply Z.shiftl_nonneg; lia).
    lia. }
  destruct n as [|p|p]; [reflexivity | | lia].
  unfold binary_normalize, binary_round.
  destruct (shl_align p 0 _) as [mz ez].
  apply binary_round_aux_signed. lia.
Qed.

(** ** Finite results *)

(** Rounding a mantissa of 53 digits or more that is of normal size and
    below the overflow threshold gives a finite number, one binary digit
    longer at most. *)
Lemma binary_round_aux_finite (sx : bool) (mx ex : Z) (lx : location) :
  0 < mx -> 53 <= digits mx -> -1021 <= digits mx + ex <= 1023 ->
  exists m e,
    binary_round_aux F64.prec F64.emax sx mx ex lx = S754_finite sx m e
    /\ digits mx + ex <= digits (Zpos m) + e <= digits mx + ex + 1.
Proof.
  intros Hm Hd Hmag. unfold binary_round_aux.
  pose proof (shr_fexp_sized mx ex lx Hm (proj1 Hmag)) as H1. cbv zeta in H1.
  destruct (shr_fexp F64.prec F64.emax mx ex lx) as [r1 e1].
  cbn [fst snd] in H1. destruct H1 as (Hr1 & Hmag1 & Hd1).
  set (m2 := round_nearest_even (shr_m r1) (loc_of_shr_record r1)).
  pose proof (round_nearest_even_bounds (shr_m r1) (loc_of_shr_record r1))
    as Hm2. fold m2 in Hm2.
  assert (Hm2pos : 0 < m2) by lia.
  assert (Hd2 : digits (shr_m r1) <= digits m2 <= digits (shr_m r1) + 1).
  { split; [apply digits_mono; lia|].
    eapply Z.le_trans; [apply (digits_mono m2 (shr_m r1 + 1)); lia|].
    now apply digits_succ_le. }
  pose proof (shr_fexp_sized m2 e1 loc_Exact Hm2pos) as H2. cbv zeta in H2.
  destruct (shr_fexp F64.prec F64.emax m2 e1 loc_Exact) as [r2 e2].
  cbn [fst snd] in H2. destruct H2 as (Hr2 & Hmag2 & Hd3); [lia|].
  destruct (shr_m r2) as [|m3|m3] eqn:E3; try lia.
  destruct (Z.leb_spec e2 (F64.emax - F64.prec)) as [_|Hbig].
  - exists m3, e2. split; [reflexivity | lia].
  - unfold F64.emax, F64.prec in Hbig. lia.
Qed.

Lemma of_Z_finite (n : Z) :
  0 < n < 2 ^ 63 ->
  exists m e, F64.of_Z n = S754_finite false m e
              /\ 1 <= digits (Zpos m) + e <= 64.
Proof.
  intros Hn. destruct n as [|p|p]; try lia.
  unfold F64.of_Z, binary_normalize, binary_round.
  assert (Hd : 1 <= digits (Zpos p) <= 63).
  { pose proof (digits_pos (Zpos p)). split; [lia|].
    rewrite digits_log2 by lia.
    assert (Z.log2 (Zpos p) < 63) by (apply Z.log2_lt_pow2; lia). lia. }
  pose proof (shl_align_sized p 0
                (fexp F64.prec F64.emax (Zpos (digits2_pos p) + 0))) as Ha.
  assert (Hz : 53 <= digits (Zpos (fst (shl_align p 0
                (fexp F64.prec F64.emax (Zpos (digits2_pos p) + 0)))))).
  { unfold shl_align, fexp, emin, F64.prec, F64.emax.
    change (Zpos (digits2_pos p)) with (digits (Zpos p)).
    rewrite Z.max_l by lia.
    destruct (digits (Zpos p) + 0 - 53 - 0) as [|d|d] eqn:E; cbn [fst];
      try lia.
    rewrite digits_iter_xO. lia. }
  destruct (shl_align p 0 _) as [mz ez]. cbn [fst snd] in Ha, Hz.
  destruct (binary_round_aux_finite false (Zpos mz) ez loc_Exact)
    as (m & e & E & Hme); try lia.
  exists m, e. split; [exact E | lia].
Qed.

(** [float64(totalBytes) * 8] of a positive int64 byte count is finite. *)
Lemma bits_finite (n : Z) :
  0 < n < 2 ^ 63 ->
  exists m e, F64.mul (F64.of_Z n) (F64.of_Z 8) = S754_finite false m e.
Proof.
  intros Hn. destruct (of_Z_finite n Hn) as (m & e & E & Hme).
  rewrite E.
  change (F64.of_Z 8) with (S754_finite false 4503599627370496 (-49)).
  unfold F64.mul, SFmul. cbn [xorb].
  pose proof (digits_mul m 4503599627370496) as Hd.
  change (digits 4503599627370496) with 53 in Hd.
  pose proof (digits_pos (Zpos m)).
  assert (Hup : digits (Zpos (m * 4503599627370496))
                <= digits (Zpos m) + 53).
  { rewrite Pos2Z.inj_mul, !digits_log2 by lia.
    pose proof (Z.log2_mul_above (Zpos m) 4503599627370496).
    change (Z.log2 4503599627370496) with 52 in *. lia. }
  destruct (binary_round_aux_finite false (Zpos (m * 4503599627370496))
              (e + -49) loc_Exact) as (m' & e' & E' & _); try lia.
  eauto.
Qed.

(** The bitrate of a phase that took a measurable time is a non-negative
    number or [+Inf], never a NaN. *)
Lemma megabits_nonneg (totalBytes : Z) (d : Duration) :
  0 <= totalBytes < 2 ^ 63 -> 0 < d ->
  F64.nonneg (megabits totalBytes (Seconds d)) = true.
Proof.
  intros Hb Hd.
  destruct (Z.eq_dec totalBytes 0) as [->|Hnz];
    [now rewrite megabits_zero|].
  apply signed_nonneg. unfold megabits.
  destruct (bits_finite totalBytes) as (m & e & E); [lia|]. rewrite E.
  change (F64.of_Z 1000000) with (S754_finite false 8589934592000000 (-33)).
  change (F64.of_Z 1000) with (S754_finite false 8796093022208000 (-43)).
  assert (Hden : sized false (-10)
                   (F64.mul (Seconds d)
                      (S754_finite false 8589934592000000 (-33)))).
  { change (-10) with (-29 + (digits 8589934592000000 + -33) - 1).
    apply mul_sized; [now apply Seconds_sized|].
    change (digits 8589934592000000) with 53. lia. }
  apply div_signed, Round_signed, mul_signed.
  exact (div_by_sized _ _ _ _ Hden).
Qed.
(** ** The latency sampler *)

Section Sampler.

Variable probe : nat -> ProbeOutcome.
Variable testURL : string.

Lemma wrap64_small (z : Z) : - 2 ^ 63 <= z < 2 ^ 63 -> wrap64 z = z.
Proof.
  intros Hz. unfold wrap64.
  rewrite Z.mod_small; lia.
Qed.

Lemma samples_step (i n : nat) :
  samples probe i (S n) = sampleOf (probe i) ++ samples probe (S i) n.
Proof. reflexivity. Qed.

Lemma sumZ_app (l1 l2 : list Z) : sumZ (l1 ++ l2) = sumZ l1 + sumZ l2.
Proof.
  induction l1 as [|x l1 IH]; simpl; [reflexivity|].
  rewrite IH. lia.
Qed.

Lemma sumZ_nonneg (l : list Z) : Forall (fun d => 0 <= d) l -> 0 <= sumZ l.
Proof.
  induction 1 as [|x l Hx _ IH]; simpl; lia.
Qed.

Lemma sumZ_bound (B : Z) (l : list Z) :
  Forall (fun d => 0 <= d < B) l -> 0 <= sumZ l <= Z.of_nat (List.length l) * B.
Proof.
  induction 1 as [|x l Hx _ IH]; [simpl; lia|].
  change (sumZ (x :: l)) with (x + sumZ l).
  change (List.length (x :: l)) with (S (List.length l)).
  rewrite Nat2Z.inj_succ. nia.
Qed.

(** The counters after [n] more iterations, as long as the running total
    stays an [int64]. *)
Lemma probeLoop_counters (n i : nat) (st : Sampler) :
  Forall (fun d => 0 <= d) (samples probe i n) ->
  0 <= totalLatency st ->
  totalLatency st + sumZ (samples probe i n) < 2 ^ 63 ->
  let st' := probeLoop probe testURL i n st in
  totalLatency st' = totalLatency st + sumZ (samples probe i n)
  /\ successCount st' =
     successCount st + Z.of_nat (List.length (samples probe i n)).
Proof.
  revert i st. induction n as [|n IH]; intros i st Hpos Hst Hsum.
  - simpl. unfold samples. simpl. lia.
  - rewrite samples_step in Hpos, Hsum |- *.
    apply Forall_app in Hpos. destruct Hpos as [Hhd Htl].
    rewrite sumZ_app in Hsum |- *.
    pose proof (sumZ_nonneg _ Htl) as Htl0.
    cbn [probeLoop]. cbv zeta.
    destruct (probe i) as [| |latency]; cbn [probeStep sampleOf] in *.
    + specialize (IH (S i) st Htl Hst). cbn [sumZ fold_right app] in *.
      rewrite Z.add_0_l in *. apply IH. lia.
    + specialize
        (IH (S i)
            {| totalLatency := totalLatency st;
               successCount := successCount st;
               samplerLog := samplerLog st ++ [EvGet testURL] |} Htl Hst).
      cbn [sumZ fold_right app totalLatency successCount] in *.
      rewrite Z.add_0_l in *. apply IH. lia.
    + assert (Hl : 0 <= latency) by (inversion Hhd; assumption).
      cbn [sumZ fold_right] in Hsum. rewrite Z.add_0_r in Hsum.
      assert (Hw : wrap64 (totalLatency st + latency)
                   = totalLatency st + latency)
        by (apply wrap64_small; lia).
      specialize
        (IH (S i)
            {| totalLatency := wrap64 (totalLatency st + latency);
               successCount := successCount st + 1;
               samplerLog :=
                 samplerLog st
                 ++ [EvGet testURL; EvSleep (100 * Millisecond)] |} Htl).
      cbn [totalLatency successCount] in IH. rewrite Hw in IH.
      destruct IH as [IH1 IH2]; [lia | lia |].
      cbv zeta in IH1, IH2. rewrite Hw. rewrite IH1, IH2.
      cbn [sumZ fold_right app List.length].
      rewrite Nat2Z.inj_succ. lia.
Qed.

Lemma samples_length (i n : nat) :
  (List.length (samples probe i n) <= n)%nat.
Proof.
  revert i. induction n as [|n IH]; intros i.
  - simpl. lia.
  - rewrite samples_step, length_app. specialize (IH (S i)).
    destruct (probe i); simpl; lia.
Qed.

Lemma samples_nil_iff (i n : nat) :
  samples probe i n = [] <->
  (forall k latency, (i <= k < i + n)%nat -> probe k <> ProbeOk latency).
Proof.
  revert i. induction n as [|n IH]; intros i.
  - split; [intros _ k latency Hk; lia | reflexivity].
  - rewrite samples_step. split.
    + intros H. apply app_eq_nil in H. destruct H as [Hhd Htl].
      intros k latency Hk. destruct (Nat.eq_dec k i) as [->|Hne].
      * intros E. rewrite E in Hhd. discriminate.
      * apply (proj1 (IH (S i)) Htl). lia.
    + intros H. assert (Hhd : sampleOf (probe i) = []).
      { destruct (probe i) as [| |latency] eqn:E; try reflexivity.
        exfalso. apply (H i latency); [lia | assumption]. }
      rewrite Hhd. apply IH. intros k latency Hk. apply H. lia.
Qed.

End Sampler.

Lemma probeLoop_log (probe : nat -> ProbeOutcome) (testURL : string)
  (n i : nat) (st : Sampler) :
  samplerLog (probeLoop probe testURL i n st) =
  samplerLog st ++ flat_map (fun k => eventsOf testURL (probe k)) (seq i n).
Proof.
  revert i st. induction n as [|n IH]; intros i st.
  - simpl. now rewrite app_nil_r.
  - cbn [probeLoop seq flat_map]. rewrite IH.
    destruct (probe i); cbn [probeStep eventsOf samplerLog];
      rewrite <- ?app_assoc; reflexivity.
Qed.

(** What the sampler does to the network: a GET per probe whose request
    could be built, and the 100 ms sleep after the successful ones only. *)
Lemma measureIdleLatency_log (probe : nat -> ProbeOutcome) (testURL : string) :
  snd (measureIdleLatency probe testURL) =
  flat_map (fun k => eventsOf testURL (probe k)) (seq 0 numTests).
Proof.
  unfold measureIdleLatency.
  destruct (successCount _ =? 0); cbn [snd]; now rewrite probeLoop_log.
Qed.

Lemma allProbesFail_samples (probe : nat -> ProbeOutcome) :
  allProbesFail probe <-> samples probe 0 numTests = [].
Proof.
  rewrite samples_nil_iff. unfold allProbesFail. split; intros H k latency Hk.
  - apply H. lia.
  - apply H. lia.
Qed.

Lemma ten_samples_fit (s l : Z) :
  l <= 10 -> 0 <= s <= l * 2 ^ 59 -> 0 + s < 2 ^ 63.
Proof. lia. Qed.

(** C2: the sampler fails with AllSamplesFailed exactly when none of the ten
    probes succeeds; otherwise it returns, as a float64, the arithmetic mean
    of the successful samples in whole milliseconds (the integer [ms] with
    [ms <= mean < ms + 1], Go's two truncating divisions), failed probes
    contributing nothing; with a single success that is the sample's own
    value in milliseconds. Samples are elapsed times, non-negative and
    below 2^59 ns, so the int64 total cannot wrap. *)
Theorem sampler_mean_or_AllSamplesFailed
  (probe : nat -> ProbeOutcome) (testURL : string) :
  let xs := samples probe 0 numTests in
  let n := Z.of_nat (List.length xs) in
  let value := fst (fst (measureIdleLatency probe testURL)) in
  let err := snd (fst (measureIdleLatency probe testURL)) in
  Forall (fun d => 0 <= d < 2 ^ 59) xs ->
  (err = Some AllSamplesFailed <-> allProbesFail probe)
  /\ (err = None <-> ~ allProbesFail probe)
  /\ (~ allProbesFail probe ->
      value = F64.of_Z (meanMillis xs)
      /\ meanMillis xs * (n * 1000000) <= sumZ xs
         < (meanMillis xs + 1) * (n * 1000000))
  /\ (forall d, xs = [d] -> value = F64.of_Z (d / 1000000)).
Proof.
  cbv zeta.
  remember (samples probe 0 numTests) as xs eqn:Exs.
  remember (Z.of_nat (List.length xs)) as n eqn:En.
  intros Hxs.
  assert (Hlen : (List.length xs <= 10)%nat).
  { rewrite Exs. apply samples_length. }
  pose proof (sumZ_bound (2 ^ 59) xs Hxs) as Hsum.
  assert (Hpos : Forall (fun d => 0 <= d) xs).
  { eapply Forall_impl; [|exact Hxs]. simpl. intros; lia. }
  destruct
    (probeLoop_counters probe testURL numTests 0
       {| totalLatency := 0; successCount := 0; samplerLog := [] |})
    as [Htot Hcnt].
  { rewrite <- Exs. exact Hpos. }
  { simpl. lia. }
  { rewrite <- Exs. cbn [totalLatency]. unfold numTests in Hlen.
    apply Nat2Z.inj_le in Hlen. change (Z.of_nat 10) with 10 in Hlen.
    apply (ten_samples_fit _ _ Hlen Hsum). }
  rewrite <- Exs in Htot, Hcnt. cbn [totalLatency successCount] in Htot, Hcnt.
  rewrite Z.add_0_l in Htot, Hcnt. rewrite <- En in Hcnt.
  assert (Hfail : allProbesFail probe <-> n = 0).
  { rewrite allProbesFail_samples. rewrite <- Exs. subst n. clear.
    destruct xs; simpl; split; intros; try reflexivity; try discriminate; lia. }
  assert (Hn : 0 <= n) by (subst n; lia).
  unfold measureIdleLatency. rewrite Hcnt, Htot.
  destruct (Z.eqb_spec n 0) as [Hz|Hnz]; cbn [fst snd].
  - assert (Hall : allProbesFail probe) by now apply Hfail.
    split; [|split; [|split]].
    + split; [intros _; exact Hall | reflexivity].
    + split; [discriminate | intros H; contradiction].
    + intros H. contradiction.
    + intros d Hd. exfalso. rewrite En, Hd in Hz. discriminate.
  - assert (Hsome : ~ allProbesFail probe)
      by (intros H; apply Hnz; now apply Hfail).
    assert (Hmean : Milliseconds (Z.quot (sumZ xs) n) = meanMillis xs).
    { unfold Milliseconds, meanMillis. rewrite <- En.
      rewrite (Z.quot_div_nonneg (sumZ xs) n) by lia.
      rewrite Z.quot_div_nonneg by (try apply Z.div_pos; lia).
      rewrite Z.div_div by lia. reflexivity. }
    rewrite Hmean.
    split; [|split; [|split]].
    + split; [discriminate | intros H; contradiction].
    + split; [intros _; exact Hsome | reflexivity].
    + intros _. split; [reflexivity|].
      unfold meanMillis. rewrite <- En.
      pose proof (Z.div_mod (sumZ xs) (n * 1000000)) as Hdm.
      pose proof (Z.mod_pos_bound (sumZ xs) (n * 1000000)) as Hmb.
      nia.
    + intros d Hd. unfold meanMillis. rewrite Hd. simpl sumZ.
      simpl List.length. rewrite Z.add_0_r. reflexivity.
Qed.

Lemma sampler_mean_or_AllSamplesFailed_witness :
  Forall (fun d => 0 <= d < 2 ^ 59) (samples firstProbeFails 0 numTests)
  /\ fst (measureIdleLatency firstProbeFails "u") = (F64.of_Z 7, None).
Proof.
  assert (H : Forall (fun d => 0 <= d < 2 ^ 59)
                (samples firstProbeFails 0 numTests)).
  { replace (samples firstProbeFails 0 numTests) with (repeat 7000000 9)
      by (vm_compute; reflexivity).
    cbn [repeat]. repeat (constructor; [lia|]). constructor. }
  split; [exact H|].
  destruct (sampler_mean_or_AllSamplesFailed firstProbeFails "u" H)
    as (_ & _ & Hmean & _).
  destruct Hmean as [Hv _].
  { intros Hall. apply (Hall 1%nat (7 * Millisecond)); [unfold numTests; lia|].
    reflexivity. }
  rewrite (surjective_pairing (fst (measureIdleLatency firstProbeFails "u"))).
  rewrite Hv. reflexivity.
Defined.

(** C8: after a probe that failed the sampler sleeps not at all: with a
    first probe that fails, the log opens with two GET requests and nothing
    between them; the 100 ms sleep follows the successful probes only. *)
Theorem no_pacing_after_failed_probe (testURL : string) :
  snd (measureIdleLatency firstProbeFails testURL) =
  EvGet testURL :: EvGet testURL :: EvSleep (100 * Millisecond)
  :: flat_map (fun k => eventsOf testURL (firstProbeFails k)) (seq 2 8).
Proof.
  rewrite measureIdleLatency_log. reflexivity.
Qed.

(** ** Comparisons of float64 *)

Lemma SFcompare_antisym (x y : float64) :
  SFcompare x y = option_map CompOpp (SFcompare y x).
Proof.
  destruct x as [sx|sx| |sx mx ex], y as [sy|sy| |sy my ey];
    try reflexivity; try (destruct sx; reflexivity);
    try (destruct sy; reflexivity);
    try (destruct sx, sy; reflexivity).
  destruct sx, sy; cbn [SFcompare option_map]; try reflexivity.
  - rewrite (Z.compare_antisym ey ex).
    destruct (ey ?= ex); cbn [CompOpp]; try reflexivity.
    rewrite (Pos.compare_cont_antisym my mx Eq). reflexivity.
  - rewrite (Z.compare_antisym ey ex).
    destruct (ey ?= ex); cbn [CompOpp]; try reflexivity.
    rewrite (Pos.compare_cont_antisym my mx Eq). cbn [CompOpp].
    reflexivity.
Qed.

Lemma leb_not_ltb (a x : float64) : F64.leb a x = true -> F64.ltb x a = false.
Proof.
  unfold F64.leb, F64.ltb, SFleb, SFltb. rewrite (SFcompare_antisym x a).
  destruct (SFcompare a x) as [[| |]|]; cbn; congruence.
Qed.

Lemma leb_not_ltb_smaller (m1 m2 : positive) (e1 e2 : Z) (x : float64) :
  e2 < e1 ->
  F64.leb (S754_finite false m1 e1) x = true ->
  F64.ltb x (S754_finite false m2 e2) = false.
Proof.
  intros He. unfold F64.leb, F64.ltb, SFleb, SFltb.
  destruct x as [sx|sx| |sx mx ex]; cbn [SFcompare]; try congruence.
  - destruct sx; congruence.
  - destruct sx; [congruence|].
    destruct (Z.compare_spec e1 ex) as [E|E|E];
      destruct (Z.compare_spec ex e2) as [E'|E'|E'];
      try congruence; try lia.
Qed.

Lemma leb_1000_not_ltb_200 (x : float64) :
  F64.leb (F64.of_Z 1000) x = true -> F64.ltb x (F64.of_Z 200) = false.
Proof.
  change (F64.of_Z 1000) with (S754_finite false 8796093022208000 (-43)).
  change (F64.of_Z 200) with (S754_finite false 7036874417766400 (-45)).
  apply leb_not_ltb_smaller. lia.
Qed.

(** ** The orchestrator *)

(** C3: a non-positive test duration or an empty list of download
    endpoints makes RunQualityTest return a configuration error at once;
    the log of the run is empty, so no probe, download or upload request
    (and no sleep) has happened. *)
Theorem config_errors_before_io (env : Env) (config : TestConfig) :
  TestDuration config <= 0 \/ TestServers config = [] ->
  snd (RunQualityTest env (Some config)) = []
  /\ (fst (RunQualityTest env (Some config))
        = Err (Errorf "test duration must be positive")
      \/ fst (RunQualityTest env (Some config))
        = Err (Errorf "no download test servers configured")).
Proof.
  intros H. unfold RunQualityTest.
  destruct (Z.leb_spec (TestDuration config) 0) as [Hd|Hd].
  - split; [reflexivity | left; reflexivity].
  - destruct H as [H|H]; [lia|]. rewrite H.
    split; [reflexivity | right; reflexivity].
Qed.

Lemma config_errors_before_io_witness :
  (TestDuration noDownloadServers <= 0 \/ TestServers noDownloadServers = [])
  /\ RunQualityTest steadyEnv (Some noDownloadServers)
     = (Err (Errorf "no download test servers configured"), []).
Proof.
  assert (H : TestDuration noDownloadServers <= 0
              \/ TestServers noDownloadServers = [])
    by (right; reflexivity).
  split; [exact H|].
  destruct (config_errors_before_io steadyEnv noDownloadServers H)
    as [Hlog _].
  rewrite (surjective_pairing (RunQualityTest steadyEnv _)), Hlog.
  reflexivity.
Defined.

(** C9: a nil configuration pointer does not make RunQualityTest fail: the
    run is the run of the default configuration (10 s, 4 connections, the
    built-in download and upload endpoints, 512 KB chunks), and it passes
    both configuration checks, so whatever error it may end with is a
    wrapped stage error. *)
Theorem nil_config_runs_default (env : Env) :
  RunQualityTest env None = RunQualityTest env (Some DefaultConfig)
  /\ TestDuration DefaultConfig = 10 * 1000000000
  /\ NumConnections DefaultConfig = 4
  /\ TestServers DefaultConfig =
       [ "https://speed.cloudflare.com/__down?bytes=10000000";
         "https://www.google.com/generate_204" ]
  /\ UploadServers DefaultConfig =
       [ "https://httpbin.org/post";
         "https://speed.cloudflare.com/__up?bytes=10000000" ]
  /\ UploadChunkSize DefaultConfig = 512 * 1024
  /\ (forall msg, fst (RunQualityTest env None) <> Err (Errorf msg)).
Proof.
  repeat split.
  intros msg. unfold RunQualityTest.
  change (TestDuration DefaultConfig <=? 0) with false. cbv iota.
  cbn [TestServers DefaultConfig].
  destruct (measureIdleLatency _ _) as [[v [e|]] l1]; cbn [fst];
    [discriminate|].
  destruct (measureDownloadSpeed _ _ _ _) as [[[d l] [e|]] l2]; cbn [fst];
    [discriminate|].
  destruct (measureUploadSpeed _ _) as [[u [e|]] l3]; cbn [fst]; discriminate.
Qed.

(** C1: in every completed run the label is a function of the loaded
    latency alone: below 200 ms "High", from 200 ms and below 1000 ms
    "Medium", from 1000 ms on "Low"; so 199 gives "High", 200 and 999 give
    "Medium", 1000 gives "Low". *)
Theorem responsiveness_thresholds
  (env : Env) (config : option TestConfig) (r : QualityResult) :
  fst (RunQualityTest env config) = Ok r ->
  let ms := ResponsivenessMs r in
  Responsiveness r = responsivenessOf ms
  /\ (F64.ltb ms (F64.of_Z 200) = true -> Responsiveness r = "High")
  /\ (F64.leb (F64.of_Z 200) ms = true -> F64.ltb ms (F64.of_Z 1000) = true ->
      Responsiveness r = "Medium")
  /\ (F64.leb (F64.of_Z 1000) ms = true -> Responsiveness r = "Low")
  /\ (ms = F64.of_Z 199 -> Responsiveness r = "High")
  /\ (ms = F64.of_Z 200 -> Responsiveness r = "Medium")
  /\ (ms = F64.of_Z 999 -> Responsiveness r = "Medium")
  /\ (ms = F64.of_Z 1000 -> Responsiveness r = "Low").
Proof.
  intros Hrun ms.
  assert (Hlabel : Responsiveness r = responsivenessOf ms).
  { subst ms. revert Hrun. unfold RunQualityTest.
    destruct (_ <=? 0); [discriminate|].
    destruct (TestServers _) as [|downloadURL others]; [discriminate|].
    destruct (measureIdleLatency _ _) as [[v [e|]] l1]; [discriminate|].
    destruct (measureDownloadSpeed _ _ _ _) as [[[d l] [e|]] l2];
      [discriminate|].
    destruct (measureUploadSpeed _ _) as [[u [e|]] l3]; [discriminate|].
    cbn [fst]. intros E. injection E as <-. reflexivity. }
  split; [exact Hlabel|]. rewrite Hlabel. clear Hlabel Hrun.
  generalize ms. clear. intros ms. unfold responsivenessOf.
  repeat split.
  - intros ->. reflexivity.
  - intros H1 H2. rewrite (leb_not_ltb _ _ H1), H2. reflexivity.
  - intros H. rewrite (leb_1000_not_ltb_200 _ H), (leb_not_ltb _ _ H).
    reflexivity.
  - intros ->. reflexivity.
  - intros ->. reflexivity.
  - intros ->. reflexivity.
  - intros ->. reflexivity.
Qed.

Lemma responsiveness_thresholds_witness :
  exists r,
    fst (RunQualityTest steadyEnv None) = Ok r
    /\ Responsiveness r = "High".
Proof.
  eexists. split; [vm_compute; reflexivity|].
  refine (proj1 (proj2 (responsiveness_thresholds steadyEnv None _ _)) _).
  - vm_compute. reflexivity.
  - vm_compute. reflexivity.
Defined.

(** ** Worker loops *)

Section Loop.

Variable env : Env.
Variable deadline : Time.
Variable O : Type.
Variable sc : Script O.
Variable gain : O -> Z.
Variable events : O -> list Event.
Variable body : Worker -> Worker.

(** The shape both loop bodies have. *)
Hypothesis body_eq : forall w,
  body w =
  if wExited w then w
  else if negb (wNow w <? deadline) then exit w
  else if ctxDone env (wNow w) then exit w
  else next w (fst (attempt sc (wNext w)))
              (events (snd (attempt sc (wNext w))))
              (gain (snd (attempt sc (wNext w)))).

Lemma spawn_inv : loopInv env deadline sc gain events (spawn sc).
Proof.
  constructor; cbn; try reflexivity; try discriminate.
  intros k Hk. lia.
Qed.

Lemma body_inv (w : Worker) : loopInv env deadline sc gain events w -> loopInv env deadline sc gain events (body w).
Proof.
  intros [Hnow Hlive Hbytes Hlog Hexit]. rewrite body_eq.
  destruct (wExited w) eqn:Ex; [constructor; auto|].
  assert (Hl : live env deadline sc (wNext w)
               = (wNow w <? deadline) && negb (ctxDone env (wNow w)))
    by (unfold live; now rewrite Hnow).
  destruct (wNow w <? deadline) eqn:Et; cbn [negb].
  - destruct (ctxDone env (wNow w)) eqn:Ec.
    + constructor; cbn; auto.
    + constructor; cbn [next wNow wNext wBytes wLog wExited].
      * cbn [startOf]. now rewrite Hnow.
      * intros k Hk. destruct (Nat.eq_dec k (wNext w)) as [->|Hne].
        -- exact Hl.
        -- apply Hlive. lia.
      * rewrite seq_S, map_app, sumZ_app, <- Hbytes. cbn. lia.
      * rewrite seq_S, flat_map_app, <- Hlog. cbn.
        now rewrite app_nil_r.
      * discriminate.
  - constructor; cbn; auto.
Qed.

Lemma iterate_inv (d : nat) (w : Worker) :
  loopInv env deadline sc gain events w -> loopInv env deadline sc gain events (iterate d body w).
Proof.
  revert w. induction d as [|d IH]; intros w Hw; cbn [iterate].
  - now apply body_inv.
  - destruct (wExited (iterate d body w)); auto.
Qed.

Lemma fuelLeft_nonneg (w : Worker) : 0 <= fuelLeft deadline w.
Proof. unfold fuelLeft. destruct (wExited w); lia. Qed.

Lemma fuelLeft_exited (w : Worker) : fuelLeft deadline w <= 0 -> wExited w = true.
Proof. unfold fuelLeft. destruct (wExited w); [reflexivity | lia]. Qed.

Lemma body_fuel (w : Worker) :
  wExited w = false -> fuelLeft deadline (body w) <= fuelLeft deadline w - 1.
Proof.
  intros Ex. rewrite body_eq, Ex. unfold fuelLeft at 2. rewrite Ex.
  destruct (Z.ltb_spec (wNow w) deadline) as [Hlt|Hge]; cbn [negb].
  - destruct (ctxDone env (wNow w)).
    + unfold fuelLeft. cbn. lia.
    + unfold fuelLeft. cbn [next wExited wNow]. lia.
  - unfold fuelLeft. cbn. lia.
Qed.

Lemma body_exited (w : Worker) : wExited w = true -> body w = w.
Proof. intros Ex. now rewrite body_eq, Ex. Qed.

Lemma iterate_fuel (d : nat) (w : Worker) :
  fuelLeft deadline (iterate d body w) <= Z.max 0 (fuelLeft deadline w - 2 ^ Z.of_nat d).
Proof.
  revert w. induction d as [|d IH]; intros w; cbn [iterate].
  - destruct (wExited w) eqn:Ex.
    + rewrite body_exited by assumption. unfold fuelLeft. rewrite Ex. lia.
    + pose proof (body_fuel w Ex). pose proof (fuelLeft_nonneg (body w)).
      change (2 ^ Z.of_nat 0) with 1. lia.
  - rewrite Nat2Z.inj_succ, Z.pow_succ_r by lia.
    pose proof (IH w) as H1.
    destruct (wExited (iterate d body w)) eqn:Ex.
    + unfold fuelLeft at 1. rewrite Ex. lia.
    + pose proof (IH (iterate d body w)) as H2. lia.
Qed.

Lemma loopDepth_enough :
  fuelLeft deadline (spawn sc) <= 2 ^ Z.of_nat (loopDepth deadline (firstNow sc)).
Proof.
  unfold fuelLeft, loopDepth. cbn [spawn wExited wNow].
  set (a := Z.max 0 (deadline - firstNow sc) + 1).
  assert (Ha : 1 <= a) by (subst a; lia).
  rewrite Z2Nat.id by apply Z.log2_up_nonneg.
  destruct (Z.eq_dec a 1) as [->|Hne]; [cbn; lia|].
  apply Z.log2_up_spec. lia.
Qed.

(** The loop ends, and ends with the invariant. *)
Lemma runWorker_exits :
  let w := iterate (loopDepth deadline (firstNow sc)) body (spawn sc) in
  wExited w = true /\ loopInv env deadline sc gain events w.
Proof.
  cbv zeta. split.
  - apply fuelLeft_exited.
    pose proof (iterate_fuel (loopDepth deadline (firstNow sc)) (spawn sc)).
    pose proof loopDepth_enough. lia.
  - apply iterate_inv, spawn_inv.
Qed.

Lemma startOf_mono (j k : nat) : (j <= k)%nat -> startOf sc j <= startOf sc k.
Proof.
  induction 1 as [|k _ IH]; [lia|]. cbn [startOf]. lia.
Qed.

(** Without cancellation the attempts made are those that begin before
    the deadline. *)
Lemma attempts_until_deadline (w : Worker) :
  cancelAt env = None -> wExited w = true -> loopInv env deadline sc gain events w ->
  forall k, (k < wNext w)%nat <-> startOf sc k < deadline.
Proof.
  intros Hc Ex [_ Hlive _ _ Hexit] k.
  assert (Hd : forall t, ctxDone env t = false)
    by (intros t; unfold ctxDone; now rewrite Hc).
  specialize (Hexit Ex). unfold live in Hexit, Hlive.
  rewrite Hd, andb_true_r in Hexit. apply Z.ltb_ge in Hexit.
  split.
  - intros Hk. specialize (Hlive k Hk). rewrite Hd, andb_true_r in Hlive.
    now apply Z.ltb_lt.
  - intros Hk. destruct (Nat.lt_ge_cases k (wNext w)) as [|Hge]; [assumption|].
    pose proof (startOf_mono _ _ Hge). lia.
Qed.

End Loop.

Lemma downloadIter_eq (env : Env) (deadline : Time) (downloadURL : string)
  (sc : Script DownloadOutcome) (w : Worker) :
  downloadIter env deadline downloadURL sc w =
  if wExited w then w
  else if negb (wNow w <? deadline) then exit w
  else if ctxDone env (wNow w) then exit w
  else next w (fst (attempt sc (wNext w)))
              (downloadEvents downloadURL (snd (attempt sc (wNext w))))
              (downloadGain (snd (attempt sc (wNext w)))).
Proof.
  unfold downloadIter.
  destruct (wExited w); [reflexivity|].
  destruct (negb _); [reflexivity|].
  destruct (ctxDone _ _); [reflexivity|].
  destruct (attempt sc (wNext w)) as [took [| |bytes]]; reflexivity.
Qed.

Lemma uploadIter_eq (env : Env) (deadline : Time) (target : string)
  (chunkSize : Z) (sc : Script UploadOutcome) (w : Worker) :
  uploadIter env deadline target chunkSize sc w =
  if wExited w then w
  else if negb (wNow w <? deadline) then exit w
  else if ctxDone env (wNow w) then exit w
  else next w (fst (attempt sc (wNext w)))
              (uploadEvents target chunkSize (snd (attempt sc (wNext w))))
              (uploadGain chunkSize (snd (attempt sc (wNext w)))).
Proof.
  unfold uploadIter.
  destruct (wExited w); [reflexivity|].
  destruct (negb _); [reflexivity|].
  destruct (ctxDone _ _); [reflexivity|].
  destruct (attempt sc (wNext w)) as [took [| |status]]; try reflexivity.
  cbn [fst snd uploadGain uploadEvents].
  destruct ((200 <=? status) && (status <? 400)); reflexivity.
Qed.

(** ** The stages of a run *)

Lemma probeLoop_count (probe : nat -> ProbeOutcome) (testURL : string)
  (n i : nat) (st : Sampler) :
  successCount (probeLoop probe testURL i n st) =
  successCount st + Z.of_nat (List.length (samples probe i n)).
Proof.
  revert i st. induction n as [|n IH]; intros i st.
  - cbn. lia.
  - cbn [probeLoop]. rewrite IH, samples_step, length_app.
    destruct (probe i); cbn [probeStep successCount sampleOf List.length]; lia.
Qed.

(** The sampler's error, whatever the samples are. *)
Lemma sampler_error (probe : nat -> ProbeOutcome) (testURL : string) :
  (allProbesFail probe ->
   fst (measureIdleLatency probe testURL) = (F64.zero, Some AllSamplesFailed))
  /\ (~ allProbesFail probe ->
      snd (fst (measureIdleLatency probe testURL)) = None).
Proof.
  unfold measureIdleLatency. rewrite probeLoop_count. cbn [successCount].
  rewrite allProbesFail_samples.
  destruct (samples probe 0 numTests) as [|x xs]; cbn [List.length].
  - split; [reflexivity | intros H; now contradiction H].
  - rewrite Nat2Z.inj_succ.
    destruct (Z.eqb_spec (0 + Z.succ (Z.of_nat (List.length xs))) 0); [lia|].
    split; [discriminate | reflexivity].
Qed.

Lemma download_never_fails (env : Env) (config : TestConfig)
  (downloadURL latencyURL : string) :
  snd (fst (measureDownloadSpeed env config downloadURL latencyURL)) = None.
Proof.
  unfold measureDownloadSpeed.
  destruct (measureIdleLatency _ _) as [[latency e] l]. reflexivity.
Qed.

Lemma download_loaded_latency (env : Env) (config : TestConfig)
  (downloadURL latencyURL : string) :
  snd (fst (fst (measureDownloadSpeed env config downloadURL latencyURL)))
  = fst (fst (measureIdleLatency (loadedProbe env) latencyURL)).
Proof.
  unfold measureDownloadSpeed.
  destruct (measureIdleLatency _ _) as [[latency e] l]. reflexivity.
Qed.

Section Stages.

Variable env : Env.
Variable config : TestConfig.
Hypothesis duration_positive : 0 < TestDuration config.
Hypothesis servers_configured : TestServers config <> [].

(** The run of a configuration that passes both checks, stage by
    stage. *)
Lemma RunQualityTest_stages :
  RunQualityTest env (Some config) =
  let idle := measureIdleLatency (idleProbe env) (latencyURLOf config) in
  let dl :=
    measureDownloadSpeed env config (downloadURLOf config)
      (latencyURLOf config) in
  let ul := measureUploadSpeed env config in
  match snd (fst idle) with
  | Some err =>
      (Err (ErrorfW "failed to measure idle latency" err), snd idle)
  | None =>
      match snd (fst ul) with
      | Some err =>
          (Err (ErrorfW "failed to measure upload speed" err),
           snd idle ++ snd dl ++ snd ul)
      | None =>
          (Ok {| UplinkCapacity := fst (fst ul);
                 DownlinkCapacity := fst (fst (fst dl));
                 IdleLatency := fst (fst idle);
                 Responsiveness := responsivenessOf (snd (fst (fst dl)));
                 ResponsivenessMs := snd (fst (fst dl)) |},
           snd idle ++ snd dl ++ snd ul)
      end
  end.
Proof.
  unfold RunQualityTest.
  destruct (Z.leb_spec (TestDuration config) 0) as [H|_]; [lia|].
  destruct (TestServers config) as [|downloadURL others] eqn:Es;
    [contradiction|].
  cbv zeta.
  set (latencyURL := match others with
                     | [] => downloadURL
                     | second :: _ => second
                     end).
  assert (Ed : downloadURLOf config = downloadURL)
    by (unfold downloadURLOf; now rewrite Es).
  assert (El : latencyURLOf config = latencyURL)
    by (unfold latencyURLOf; rewrite Ed, Es; destruct others; reflexivity).
  rewrite Ed, El.
  pose proof (download_never_fails env config downloadURL latencyURL) as Hd.
  destruct (measureIdleLatency _ _) as [[idle [e|]] l1]; cbn [fst snd];
    [reflexivity|].
  destruct (measureDownloadSpeed _ _ _ _) as [[[d l] e] l2].
  cbn [fst snd] in Hd |- *. subst e.
  destruct (measureUploadSpeed _ _) as [[u [e|]] l3]; reflexivity.
Qed.

End Stages.

(** ** The throughput phases *)

Lemma effectiveChunkSize_pos (config : TestConfig) :
  0 < effectiveChunkSize config.
Proof.
  unfold effectiveChunkSize.
  destruct (Z.leb_spec (UploadChunkSize config) 0); lia.
Qed.

Lemma upload_succeeds (env : Env) (config : TestConfig) :
  UploadServers config <> [] -> 0 < ulElapsed env ->
  fst (measureUploadSpeed env config)
  = (megabits (wrap64 (sumBytes (uploadWorkers env config)))
       (Seconds (ulElapsed env)), None).
Proof.
  intros Hs He. unfold measureUploadSpeed.
  destruct (UploadServers config); [contradiction|].
  rewrite (sized_eqb_zero _ _ (Seconds_sized _ He)). reflexivity.
Qed.

Lemma uploadWorker_spec (env : Env) (config : TestConfig) (i : nat) :
  wExited (uploadWorker env config i) = true
  /\ loopInv env (uploadDeadline env config) (ulWorker env i)
       (uploadGain (effectiveChunkSize config))
       (uploadEvents (uploadTarget config i) (effectiveChunkSize config))
       (uploadWorker env config i).
Proof.
  apply runWorker_exits. intros w. apply uploadIter_eq.
Qed.

Lemma downloadWorker_spec (env : Env) (config : TestConfig)
  (downloadURL : string) (i : nat) :
  wExited (downloadWorker env config downloadURL i) = true
  /\ loopInv env (downloadDeadline env config) (dlWorker env i)
       downloadGain (downloadEvents downloadURL)
       (downloadWorker env config downloadURL i).
Proof.
  apply runWorker_exits. intros w. apply downloadIter_eq.
Qed.




(** C7: with a positive duration, download endpoints and no upload
    endpoint, the run ends with the upload-stage error, wrapped with the
    stage's context, exactly when the idle sampler has succeeded, and then
    after the download stage has run too and returned no error: the log is
    the idle stage's followed by the download stage's. (When every idle
    probe fails the run ends earlier, with the idle-stage error.) An upload
    phase that does run has its workers loop against the deadline
    [start + testDuration / 2]: every attempt begins before it, and a
    worker that is not cancelled leaves at its first loop head that does
    not. *)
Theorem upload_error_only_after_download (env : Env) (config : TestConfig) :
  0 < TestDuration config ->
  TestServers config <> [] ->
  UploadServers config = [] ->
  let idle := measureIdleLatency (idleProbe env) (latencyURLOf config) in
  let dl :=
    measureDownloadSpeed env config (downloadURLOf config)
      (latencyURLOf config) in
  let uploadError :=
    ErrorfW "failed to measure upload speed"
            (Errorf "no upload servers configured") in
  (~ allProbesFail (idleProbe env) ->
   RunQualityTest env (Some config) = (Err uploadError, snd idle ++ snd dl))
  /\ (allProbesFail (idleProbe env) ->
      RunQualityTest env (Some config)
      = (Err (ErrorfW "failed to measure idle latency" AllSamplesFailed),
         snd idle))
  /\ (forall cause,
        fst (RunQualityTest env (Some config))
        = Err (ErrorfW "failed to measure upload speed" cause) ->
        snd (fst idle) = None /\ snd (fst dl) = None
        /\ snd (RunQualityTest env (Some config)) = snd idle ++ snd dl)
  /\ (forall (running : TestConfig) (i : nat),
        0 < TestDuration running ->
        let w := uploadWorker env running i in
        let deadline := ulStart env + TestDuration running / 2 in
        wExited w = true
        /\ (forall k, (k < wNext w)%nat ->
                      startOf (ulWorker env i) k < deadline)
        /\ (cancelAt env = None ->
            deadline <= startOf (ulWorker env i) (wNext w))).
Proof.
  intros Hd Hs Hu idle dl uploadError.
  pose proof (RunQualityTest_stages env config Hd Hs) as Hrun.
  cbv zeta in Hrun. fold idle dl in Hrun.
  assert (Hul : measureUploadSpeed env config
                = ((F64.zero, Some (Errorf "no upload servers configured")),
                   []))
    by (unfold measureUploadSpeed; now rewrite Hu).
  rewrite Hul in Hrun. cbn [fst snd] in Hrun. rewrite app_nil_r in Hrun.
  destruct (sampler_error (idleProbe env) (latencyURLOf config))
    as [Hfail Hok]. fold idle in Hfail, Hok.
  split; [|split; [|split]].
  - intros H. rewrite Hrun, (Hok H). reflexivity.
  - intros H. rewrite Hrun, (Hfail H). reflexivity.
  - intros cause. rewrite Hrun.
    destruct (snd (fst idle)) as [e|]; cbn [fst snd]; [discriminate|].
    intros _. split; [reflexivity|]. split; [|reflexivity].
    apply download_never_fails.
  - intros running i Hrunning w deadline.
    destruct (uploadWorker_spec env running i) as [Hexit Hinv].
    fold w in Hexit, Hinv.
    assert (Hdl : uploadDeadline env running = deadline).
    { unfold uploadDeadline. subst deadline.
      now rewrite Z.quot_div_nonneg by lia. }
    rewrite Hdl in Hinv.
    split; [exact Hexit|]. split.
    + intros k Hk. pose proof (inv_live _ _ _ _ _ _ Hinv k Hk) as Hl.
      unfold live in Hl. apply andb_prop in Hl. now apply Z.ltb_lt.
    + intros Hc. pose proof (inv_exit _ _ _ _ _ _ Hinv Hexit) as Hl.
      unfold live, ctxDone in Hl. rewrite Hc, andb_true_r in Hl.
      now apply Z.ltb_ge.
Qed.

Lemma upload_error_only_after_download_witness :
  (0 < TestDuration noUploadServers
   /\ TestServers noUploadServers <> []
   /\ UploadServers noUploadServers = [])
  /\ fst (RunQualityTest steadyEnv (Some noUploadServers))
     = Err (ErrorfW "failed to measure upload speed"
              (Errorf "no upload servers configured")).
Proof.
  assert (H1 : 0 < TestDuration noUploadServers) by reflexivity.
  assert (H2 : TestServers noUploadServers <> []) by discriminate.
  assert (H3 : UploadServers noUploadServers = []) by reflexivity.
  split; [repeat split; assumption|].
  rewrite (proj1 (upload_error_only_after_download
                    steadyEnv noUploadServers H1 H2 H3)).
  - reflexivity.
  - intros H. apply (H 0%nat (7 * Millisecond)); [unfold numTests; lia|].
    reflexivity.
Defined.

(** C10, as the code has it: when all ten probes under load fail, the
    download stage still returns no error and reports a loaded latency of
    0, and RunQualityTest never ends with a download-stage error. Whether
    the run completes is then decided by the upload stage alone: when that
    succeeds (there is an upload endpoint and the upload phase took a
    measurable time) the result records 0 ms and the label "High"; when it
    fails, RunQualityTest returns its error, wrapped, and no result. *)
Theorem loaded_latency_failure_is_swallowed
  (env : Env) (config : TestConfig) :
  0 < TestDuration config ->
  TestServers config <> [] ->
  ~ allProbesFail (idleProbe env) ->
  allProbesFail (loadedProbe env) ->
  let dl :=
    measureDownloadSpeed env config (downloadURLOf config)
      (latencyURLOf config) in
  snd (fst dl) = None
  /\ snd (fst (fst dl)) = F64.zero
  /\ (forall cause,
        fst (RunQualityTest env (Some config))
        <> Err (ErrorfW "failed to measure download speed" cause))
  /\ (UploadServers config <> [] -> 0 < ulElapsed env ->
      exists r,
        fst (RunQualityTest env (Some config)) = Ok r
        /\ ResponsivenessMs r = F64.zero
        /\ Responsiveness r = "High")
  /\ (forall err,
        snd (fst (measureUploadSpeed env config)) = Some err ->
        fst (RunQualityTest env (Some config))
        = Err (ErrorfW "failed to measure upload speed" err)).
Proof.
  intros Hd Hs Hidle Hloaded dl.
  pose proof (RunQualityTest_stages env config Hd Hs) as Hrun.
  cbv zeta in Hrun. fold dl in Hrun.
  assert (Hlat : snd (fst (fst dl)) = F64.zero).
  { subst dl. rewrite download_loaded_latency.
    now rewrite (proj1 (sampler_error (loadedProbe env) _) Hloaded). }
  rewrite (proj2 (sampler_error (idleProbe env) _) Hidle) in Hrun.
  split; [apply download_never_fails|]. split; [exact Hlat|].
  split; [|split].
  - intros cause. rewrite Hrun.
    destruct (snd (fst (measureUploadSpeed env config)));
      cbn [fst]; discriminate.
  - intros Hu He. rewrite Hrun, (upload_succeeds env config Hu He).
    cbn [fst snd]. eexists. split; [reflexivity|]. cbn.
    rewrite Hlat. split; reflexivity.
  - intros err Herr. rewrite Hrun, Herr. reflexivity.
Qed.

Lemma loaded_latency_failure_is_swallowed_witness :
  (0 < TestDuration DefaultConfig
   /\ TestServers DefaultConfig <> []
   /\ ~ allProbesFail (idleProbe deafUnderLoadEnv)
   /\ allProbesFail (loadedProbe deafUnderLoadEnv))
  /\ exists r,
       fst (RunQualityTest deafUnderLoadEnv (Some DefaultConfig)) = Ok r
       /\ ResponsivenessMs r = F64.zero
       /\ Responsiveness r = "High".
Proof.
  assert (H1 : 0 < TestDuration DefaultConfig) by reflexivity.
  assert (H2 : TestServers DefaultConfig <> []) by discriminate.
  assert (H3 : ~ allProbesFail (idleProbe deafUnderLoadEnv)).
  { intros H. apply (H 0%nat (7 * Millisecond)); [unfold numTests; lia|].
    reflexivity. }
  assert (H4 : allProbesFail (loadedProbe deafUnderLoadEnv)).
  { intros i latency _. discriminate. }
  split; [repeat split; assumption|].
  apply (loaded_latency_failure_is_swallowed
           deafUnderLoadEnv DefaultConfig H1 H2 H3 H4).
  - discriminate.
  - reflexivity.
Defined.

(** C10 as it is worded fails: on a network that answers none of the ten
    probes under load, a configuration without upload endpoints passes both
    checks, the idle stage and the download stage, and the run still ends
    with an error and no result. *)
Lemma loaded_latency_failure_run_not_completed :
  0 < TestDuration noUploadServers
  /\ TestServers noUploadServers <> []
  /\ ~ allProbesFail (idleProbe deafUnderLoadEnv)
  /\ allProbesFail (loadedProbe deafUnderLoadEnv)
  /\ fst (RunQualityTest deafUnderLoadEnv (Some noUploadServers))
     = Err (ErrorfW "failed to measure upload speed"
              (Errorf "no upload servers configured"))
  /\ ~ exists r,
        fst (RunQualityTest deafUnderLoadEnv (Some noUploadServers)) = Ok r.
Proof.
  assert (H1 : 0 < TestDuration noUploadServers) by reflexivity.
  assert (H2 : TestServers noUploadServers <> []) by discriminate.
  assert (H3 : ~ allProbesFail (idleProbe deafUnderLoadEnv)).
  { intros H. apply (H 0%nat (7 * Millisecond)); [unfold numTests; lia|].
    reflexivity. }
  assert (H4 : allProbesFail (loadedProbe deafUnderLoadEnv)).
  { intros i latency _. discriminate. }
  assert (Hrun : fst (RunQualityTest deafUnderLoadEnv (Some noUploadServers))
                 = Err (ErrorfW "failed to measure upload speed"
                          (Errorf "no upload servers configured"))).
  { rewrite (RunQualityTest_stages deafUnderLoadEnv noUploadServers H1 H2).
    cbv zeta.
    rewrite (proj2 (sampler_error (idleProbe deafUnderLoadEnv) _) H3).
    reflexivity. }
  repeat split; try assumption.
  intros [r Hr]. rewrite Hrun in Hr. discriminate.
Qed.

Lemma sumZ_map_zero {A : Type} (f : A -> Z) (l : list A) :
  (forall a, f a = 0) -> sumZ (map f l) = 0.
Proof.
  intros H. induction l as [|a l IH]; [reflexivity|].
  cbn [map sumZ fold_right]. fold (sumZ (map f l)). rewrite H, IH.
  reflexivity.
Qed.

Lemma sumBytes_zero (ws : list Worker) :
  Forall (fun w => wBytes w = 0) ws -> sumBytes ws = 0.
Proof.
  induction 1 as [|w ws Hw _ IH]; [reflexivity|].
  cbn [sumBytes fold_right]. fold (sumBytes ws). lia.
Qed.

(** Workers all of whose attempts fail move no byte. *)
Lemma failed_downloads_move_nothing (env : Env) (config : TestConfig)
  (downloadURL : string) :
  (forall i k, downloadGain (snd (attempt (dlWorker env i) k)) = 0) ->
  sumBytes (downloadWorkers env config downloadURL) = 0.
Proof.
  intros H. apply sumBytes_zero. unfold downloadWorkers.
  apply Forall_map, Forall_forall. intros i _.
  destruct (downloadWorker_spec env config downloadURL i) as [_ Hinv].
  rewrite (inv_bytes _ _ _ _ _ _ Hinv). apply sumZ_map_zero. intros k.
  apply H.
Qed.

Lemma failed_uploads_move_nothing (env : Env) (config : TestConfig) :
  (forall i k,
     uploadGain (effectiveChunkSize config)
       (snd (attempt (ulWorker env i) k)) = 0) ->
  sumBytes (uploadWorkers env config) = 0.
Proof.
  intros H. apply sumBytes_zero. unfold uploadWorkers.
  apply Forall_map, Forall_forall. intros i _.
  destruct (uploadWorker_spec env config i) as [_ Hinv].
  rewrite (inv_bytes _ _ _ _ _ _ Hinv). apply sumZ_map_zero. intros k.
  apply H.
Qed.

(** C4, as the code has it: a phase that moved no byte during a measurable
    (positive) elapsed time reports +0 Mbps and no error, download and
    upload alike (the upload phase having endpoints to run against); so
    does, in particular, a phase all of whose attempts fail. An upload
    phase whose elapsed time reads exactly zero returns the error
    "upload duration was zero" instead of a bitrate. *)
Theorem zero_bytes_is_zero_mbps
  (env : Env) (config : TestConfig) (downloadURL latencyURL : string) :
  (sumBytes (downloadWorkers env config downloadURL) = 0 ->
   0 < dlElapsed env ->
   fst (fst (fst (measureDownloadSpeed env config downloadURL latencyURL)))
   = F64.zero
   /\ snd (fst (measureDownloadSpeed env config downloadURL latencyURL))
      = None)
  /\ (UploadServers config <> [] ->
      sumBytes (uploadWorkers env config) = 0 ->
      0 < ulElapsed env ->
      fst (measureUploadSpeed env config) = (F64.zero, None))
  /\ ((forall i k, downloadGain (snd (attempt (dlWorker env i) k)) = 0) ->
      sumBytes (downloadWorkers env config downloadURL) = 0)
  /\ ((forall i k,
         uploadGain (effectiveChunkSize config)
           (snd (attempt (ulWorker env i) k)) = 0) ->
      sumBytes (uploadWorkers env config) = 0)
  /\ (UploadServers config <> [] ->
      ulElapsed env = 0 ->
      fst (measureUploadSpeed env config)
      = (F64.zero, Some (Errorf "upload duration was zero"))).
Proof.
  split; [|split; [|split; [|split]]].
  - intros Hb He. split; [|apply download_never_fails].
    unfold measureDownloadSpeed.
    destruct (measureIdleLatency _ _) as [[latency e] l]. cbn [fst].
    rewrite Hb. change (wrap64 0) with 0. now apply megabits_zero.
  - intros Hs Hb He. rewrite (upload_succeeds env config Hs He), Hb.
    change (wrap64 0) with 0. now rewrite megabits_zero.
  - apply failed_downloads_move_nothing.
  - apply failed_uploads_move_nothing.
  - intros Hs He. unfold measureUploadSpeed.
    destruct (UploadServers config); [contradiction|].
    rewrite He. reflexivity.
Qed.

Lemma zero_bytes_is_zero_mbps_witness :
  (UploadServers DefaultConfig <> []
   /\ sumBytes (uploadWorkers unreachableEnv DefaultConfig) = 0
   /\ 0 < ulElapsed unreachableEnv)
  /\ fst (measureUploadSpeed unreachableEnv DefaultConfig)
     = (F64.zero, None).
Proof.
  assert (H1 : UploadServers DefaultConfig <> []) by discriminate.
  assert (H2 : sumBytes (uploadWorkers unreachableEnv DefaultConfig) = 0)
    by reflexivity.
  assert (H3 : 0 < ulElapsed unreachableEnv) by reflexivity.
  split; [repeat split; assumption|].
  apply (proj1 (proj2 (zero_bytes_is_zero_mbps unreachableEnv DefaultConfig
                         "" "")) H1 H2 H3).
Defined.

(** C4 as stated fails: an upload phase with endpoints, in which no byte is
    transferred and whose elapsed time reads zero, returns an error. *)
Lemma zero_bytes_upload_error :
  UploadServers noConnections <> []
  /\ sumBytes (uploadWorkers frozenClockEnv noConnections) = 0
  /\ fst (measureUploadSpeed frozenClockEnv noConnections)
     = (F64.zero, Some (Errorf "upload duration was zero"))
  /\ snd (fst (measureUploadSpeed frozenClockEnv noConnections)) <> None.
Proof.
  split; [discriminate|]. split; [reflexivity|].
  split; [vm_compute; reflexivity | vm_compute; discriminate].
Qed.

Lemma download_bitrate_nonneg (env : Env) (config : TestConfig)
  (downloadURL latencyURL : string) :
  0 <= sumBytes (downloadWorkers env config downloadURL) < 2 ^ 63 ->
  0 < dlElapsed env ->
  F64.nonneg
    (fst (fst (fst (measureDownloadSpeed env config downloadURL latencyURL))))
  = true.
Proof.
  intros Hb He. unfold measureDownloadSpeed.
  destruct (measureIdleLatency _ _) as [[latency e] l]. cbn [fst].
  rewrite wrap64_small by lia. now apply megabits_nonneg.
Qed.

Lemma upload_bitrate_nonneg (env : Env) (config : TestConfig) :
  0 <= sumBytes (uploadWorkers env config) < 2 ^ 63 ->
  0 <= ulElapsed env ->
  F64.nonneg (fst (fst (measureUploadSpeed env config))) = true.
Proof.
  intros Hb He. destruct (UploadServers config) as [|u us] eqn:Es.
  - unfold measureUploadSpeed. now rewrite Es.
  - destruct (Z.eq_dec (ulElapsed env) 0) as [Hz|Hnz].
    + unfold measureUploadSpeed. rewrite Es, Hz. reflexivity.
    + rewrite upload_succeeds by (rewrite ?Es; try discriminate; lia).
      cbn [fst]. rewrite wrap64_small by lia. apply megabits_nonneg; lia.
Qed.

(** C5: the download phase has no guard for an elapsed time of zero, the
    one the upload phase has: with no byte moved and a zero reading it
    divides 0 by 0 and returns NaN next to a nil error, a bitrate that is
    not non-negative, where the upload phase at the same reading returns
    its error. Everywhere else the claim holds: the bitrate is
    [math.Round(mbps*1000)/1000] for the quotient [mbps], and with a byte
    total that fits an int64 it is non-negative in every download phase of
    positive elapsed time and in every upload phase. *)
Theorem download_bitrate_nan_at_zero_elapsed :
  fst (measureDownloadSpeed frozenClockEnv noConnections
         (downloadURLOf noConnections) (latencyURLOf noConnections))
  = (S754_nan, F64.of_Z 10, None)
  /\ F64.nonneg
       (fst (fst (fst (measureDownloadSpeed frozenClockEnv noConnections
                         (downloadURLOf noConnections)
                         (latencyURLOf noConnections))))) = false
  /\ fst (measureUploadSpeed frozenClockEnv noConnections)
     = (F64.zero, Some (Errorf "upload duration was zero"))
  /\ (forall env config downloadURL latencyURL,
        0 <= sumBytes (downloadWorkers env config downloadURL) < 2 ^ 63 ->
        0 < dlElapsed env ->
        F64.nonneg
          (fst (fst (fst (measureDownloadSpeed env config downloadURL
                            latencyURL)))) = true)
  /\ (forall env config,
        0 <= sumBytes (uploadWorkers env config) < 2 ^ 63 ->
        0 <= ulElapsed env ->
        F64.nonneg (fst (fst (measureUploadSpeed env config))) = true).
Proof.
  split; [vm_compute; reflexivity|].
  split; [vm_compute; reflexivity|].
  split; [vm_compute; reflexivity|].
  split; [exact download_bitrate_nonneg | exact upload_bitrate_nonneg].
Qed.

(** ** The requests a run makes *)

Lemma Forall_flat_map_intro {A B : Type} (P : B -> Prop) (f : A -> list B)
  (l : list A) :
  (forall a, In a l -> Forall P (f a)) -> Forall P (flat_map f l).
Proof.
  intros H. induction l as [|a l IH]; [constructor|].
  cbn [flat_map]. apply Forall_app. split.
  - apply H. now left.
  - apply IH. intros b Hb. apply H. now right.
Qed.

Lemma Forall_logs (P : Event -> Prop) (ws : list Worker) :
  Forall (fun w => Forall P (wLog w)) ws -> Forall P (logs ws).
Proof.
  unfold logs. induction 1 as [|w ws Hw _ IH]; [constructor|].
  cbn [map List.concat]. apply Forall_app. now split.
Qed.

Lemma sampler_log_events (P : Event -> Prop) (probe : nat -> ProbeOutcome)
  (testURL : string) :
  P (EvGet testURL) -> P (EvSleep (100 * Millisecond)) ->
  Forall P (snd (measureIdleLatency probe testURL)).
Proof.
  intros Hg Hs. rewrite measureIdleLatency_log.
  apply Forall_flat_map_intro. intros k _.
  destruct (probe k); cbn [eventsOf]; repeat constructor; assumption.
Qed.

Lemma download_log_events (P : Event -> Prop) (env : Env)
  (config : TestConfig) (downloadURL latencyURL : string) :
  P (EvGet downloadURL) -> P (EvGet latencyURL) ->
  P (EvSleep (100 * Millisecond)) -> P (EvSleep (2 * Second)) ->
  Forall P (snd (measureDownloadSpeed env config downloadURL latencyURL)).
Proof.
  intros Hd Hl Hs Hw. unfold measureDownloadSpeed.
  pose proof (sampler_log_events P (loadedProbe env) latencyURL Hl Hs) as Hlat.
  destruct (measureIdleLatency _ _) as [[latency e] l]. cbn [snd] in *.
  constructor; [exact Hw|]. apply Forall_app. split; [exact Hlat|].
  apply Forall_logs. unfold downloadWorkers. apply Forall_map, Forall_forall.
  intros i _.
  destruct (downloadWorker_spec env config downloadURL i) as [_ Hinv].
  rewrite (inv_log _ _ _ _ _ _ Hinv). apply Forall_flat_map_intro.
  intros k _. destruct (snd (attempt (dlWorker env i) k));
    cbn [downloadEvents]; repeat constructor; assumption.
Qed.

Lemma download_log_nonempty (env : Env) (config : TestConfig)
  (downloadURL latencyURL : string) :
  snd (measureDownloadSpeed env config downloadURL latencyURL) <> [].
Proof.
  unfold measureDownloadSpeed.
  destruct (measureIdleLatency _ _) as [[latency e] l]. cbn [snd].
  discriminate.
Qed.

Lemma uploadTarget_In (config : TestConfig) (i : nat) :
  UploadServers config <> [] ->
  In (uploadTarget config i) (UploadServers config).
Proof.
  intros H. unfold uploadTarget. apply nth_In.
  apply Nat.mod_upper_bound. destruct (UploadServers config);
    [contradiction | discriminate].
Qed.

Lemma upload_log_events (P : Event -> Prop) (env : Env)
  (config : TestConfig) :
  (forall url, In url (UploadServers config) ->
               P (EvPost url (effectiveChunkSize config))) ->
  Forall P (snd (measureUploadSpeed env config)).
Proof.
  intros Hp. unfold measureUploadSpeed.
  destruct (UploadServers config) as [|u us] eqn:Es; [constructor|].
  assert (Hlogs : Forall P (logs (uploadWorkers env config))).
  { apply Forall_logs. unfold uploadWorkers. apply Forall_map, Forall_forall.
    intros i _. destruct (uploadWorker_spec env config i) as [_ Hinv].
    rewrite (inv_log _ _ _ _ _ _ Hinv). apply Forall_flat_map_intro.
    intros k _.
    assert (Hin : In (uploadTarget config i) (u :: us))
      by (rewrite <- Es; apply uploadTarget_In; rewrite Es; discriminate).
    destruct (snd (attempt (ulWorker env i) k));
      cbn [uploadEvents]; repeat constructor; now apply Hp. }
  destruct (F64.eqb _ _); exact Hlogs.
Qed.

Lemma RunQualityTest_effective (env : Env) (config : option TestConfig) :
  RunQualityTest env config = RunQualityTest env (Some (effectiveConfig config)).
Proof. destruct config; reflexivity. Qed.

Lemma config_error_log (env : Env) (config : TestConfig) :
  TestDuration config <= 0 \/ TestServers config = [] ->
  snd (RunQualityTest env (Some config)) = [].
Proof.
  intros H. unfold RunQualityTest.
  destruct (Z.leb_spec (TestDuration config) 0) as [Hd|Hd]; [reflexivity|].
  destruct H as [H|H]; [lia|]. now rewrite H.
Qed.

(** The log of a run, stage by stage, for any predicate that holds of the
    events of each stage. *)
Lemma run_log_events (P : Event -> Prop) (env : Env) (config : TestConfig) :
  P (EvGet (downloadURLOf config)) -> P (EvGet (latencyURLOf config)) ->
  P (EvSleep (100 * Millisecond)) -> P (EvSleep (2 * Second)) ->
  (forall url, In url (UploadServers config) ->
               P (EvPost url (effectiveChunkSize config))) ->
  Forall P (snd (RunQualityTest env (Some config))).
Proof.
  intros Hd Hl Hs Hw Hp.
  destruct (Z.leb_spec (TestDuration config) 0) as [Hdur|Hdur].
  { rewrite (config_error_log env config (or_introl Hdur)).
    constructor. }
  destruct (TestServers config) as [|s ss] eqn:Es.
  { rewrite (config_error_log env config (or_intror Es)).
    constructor. }
  rewrite RunQualityTest_stages by (rewrite ?Es; try discriminate; lia).
  cbv zeta.
  pose proof (sampler_log_events P (idleProbe env) (latencyURLOf config)
                Hl Hs) as H1.
  pose proof (download_log_events P env config (downloadURLOf config)
                (latencyURLOf config) Hd Hl Hs Hw) as H2.
  pose proof (upload_log_events P env config Hp) as H3.
  destruct (snd (fst (measureIdleLatency _ _))); cbn [snd]; [exact H1|].
  destruct (snd (fst (measureUploadSpeed _ _))); cbn [snd];
    repeat (apply Forall_app; split); assumption.
Qed.

(** X1: whatever the network answers, the requests a run builds and hands
    to [client.Do] are GETs for the first download endpoint and for the
    latency endpoint (the second download endpoint, or the first when there
    is no second) and POSTs of the effective chunk size, which is positive,
    to configured upload endpoints; the run names no other URL in a
    request, and it sleeps only the sampler's 100 ms and the 2 s warm-up.
    Where a server answers with a redirect, the client goes on to the
    address the server names; that is the client's request, it is not in
    the log and this statement does not speak of it. *)
Theorem run_requests_name_configured_endpoints_only
  (env : Env) (config : option TestConfig) :
  Forall (allowedEvent (effectiveConfig config))
         (snd (RunQualityTest env config)).
Proof.
  rewrite RunQualityTest_effective.
  apply run_log_events; cbn [allowedEvent]; auto.
  intros url Hin. split; [exact Hin|]. split; [reflexivity|].
  apply effectiveChunkSize_pos.
Qed.

(** X2: the upload requests of a run come after everything else it
    does: the calls of a run, in the order of the log, are a part without
    any call of [client.Do] with a POST, the idle and the download stage,
    followed by a part that has nothing but such calls, and the first part
    is empty only when the whole log is (no worker posts in a run that has
    not probed and downloaded first). The statement is about the calls of
    the code; what a client requests by itself while it follows a redirect
    is not in the log. *)
Theorem uploads_follow_downloads (env : Env) (config : option TestConfig) :
  exists before uploads,
    snd (RunQualityTest env config) = before ++ uploads
    /\ Forall (fun e => isPost e = false) before
    /\ Forall (fun e => isPost e = true) uploads
    /\ (before = [] -> uploads = []).
Proof.
  rewrite RunQualityTest_effective.
  set (cfg := effectiveConfig config).
  destruct (Z.leb_spec (TestDuration cfg) 0) as [Hdur|Hdur].
  { exists [], [].
    rewrite (config_error_log env cfg (or_introl Hdur)).
    repeat split; constructor. }
  destruct (TestServers cfg) as [|s ss] eqn:Es.
  { exists [], [].
    rewrite (config_error_log env cfg (or_intror Es)).
    repeat split; constructor. }
  rewrite RunQualityTest_stages by (rewrite ?Es; try discriminate; lia).
  cbv zeta.
  set (idle := measureIdleLatency (idleProbe env) (latencyURLOf cfg)).
  set (dl := measureDownloadSpeed env cfg (downloadURLOf cfg)
               (latencyURLOf cfg)).
  set (ul := measureUploadSpeed env cfg).
  assert (H1 : Forall (fun e => isPost e = false) (snd idle))
    by (apply sampler_log_events; reflexivity).
  assert (H2 : Forall (fun e => isPost e = false) (snd dl))
    by (apply download_log_events; reflexivity).
  assert (H3 : Forall (fun e => isPost e = true) (snd ul))
    by (apply upload_log_events; reflexivity).
  assert (Hdl : snd dl <> []) by apply download_log_nonempty.
  destruct (snd (fst idle)); cbn [snd].
  - exists (snd idle), []. rewrite app_nil_r.
    repeat split; try assumption; constructor.
  - assert (Hne : snd idle ++ snd dl = [] -> snd ul = []).
    { intros E. apply app_eq_nil in E. destruct E as [_ E]. contradiction. }
    destruct (snd (fst ul)); cbn [snd];
      exists (snd idle ++ snd dl), (snd ul); rewrite app_assoc;
      (split; [reflexivity|]); (split; [now apply Forall_app|]);
      (split; [assumption|exact Hne]).
Qed.

(** ** How a run ends *)

Lemma upload_error_cases (env : Env) (config : TestConfig) :
  (UploadServers config = [] ->
   fst (measureUploadSpeed env config)
   = (F64.zero, Some (Errorf "no upload servers configured")))
  /\ (UploadServers config <> [] -> ulElapsed env = 0 ->
      fst (measureUploadSpeed env config)
      = (F64.zero, Some (Errorf "upload duration was zero")))
  /\ (forall e, snd (fst (measureUploadSpeed env config)) = Some e ->
      e = Errorf "no upload servers configured"
      \/ e = Errorf "upload duration was zero").
Proof.
  unfold measureUploadSpeed. split; [|split].
  - intros ->. reflexivity.
  - intros Hs He. destruct (UploadServers config); [contradiction|].
    rewrite He. reflexivity.
  - intros e. destruct (UploadServers config).
    + cbn. intros E. injection E as <-. now left.
    + destruct (F64.eqb _ _); cbn; intros E; [|discriminate].
      injection E as <-. now right.
Qed.

(** X3: the checks of a run in the order in which they decide: a
    non-positive duration, then an empty list of download endpoints, then
    an idle sampler without a single answer, then an empty list of upload
    endpoints, then an upload phase whose elapsed time reads zero; a run
    that passes them all (the upload phase taking a positive time) returns
    a result. The download stage never fails the run, and no other error
    exists. *)
Theorem first_failing_check_decides (env : Env) (config : option TestConfig) :
  let cfg := effectiveConfig config in
  let outcome := fst (RunQualityTest env config) in
  (TestDuration cfg <= 0 ->
   outcome = Err (Errorf "test duration must be positive"))
  /\ (0 < TestDuration cfg -> TestServers cfg = [] ->
      outcome = Err (Errorf "no download test servers configured"))
  /\ (0 < TestDuration cfg -> TestServers cfg <> [] ->
      allProbesFail (idleProbe env) ->
      outcome = Err (ErrorfW "failed to measure idle latency"
                             AllSamplesFailed))
  /\ (0 < TestDuration cfg -> TestServers cfg <> [] ->
      ~ allProbesFail (idleProbe env) -> UploadServers cfg = [] ->
      outcome = Err (ErrorfW "failed to measure upload speed"
                             (Errorf "no upload servers configured")))
  /\ (0 < TestDuration cfg -> TestServers cfg <> [] ->
      ~ allProbesFail (idleProbe env) -> UploadServers cfg <> [] ->
      ulElapsed env = 0 ->
      outcome = Err (ErrorfW "failed to measure upload speed"
                             (Errorf "upload duration was zero")))
  /\ (0 < TestDuration cfg -> TestServers cfg <> [] ->
      ~ allProbesFail (idleProbe env) -> UploadServers cfg <> [] ->
      0 < ulElapsed env ->
      exists r, outcome = Ok r)
  /\ (forall cause,
        outcome <> Err (ErrorfW "failed to measure download speed" cause))
  /\ match outcome with
     | Ok _ => True
     | Err e =>
         e = Errorf "test duration must be positive"
         \/ e = Errorf "no download test servers configured"
         \/ e = ErrorfW "failed to measure idle latency" AllSamplesFailed
         \/ e = ErrorfW "failed to measure upload speed"
                        (Errorf "no upload servers configured")
         \/ e = ErrorfW "failed to measure upload speed"
                        (Errorf "upload duration was zero")
     end.
Proof.
  intros cfg outcome. subst outcome. rewrite RunQualityTest_effective.
  fold cfg.
  destruct (Z.leb_spec (TestDuration cfg) 0) as [Hd|Hd].
  { assert (E : fst (RunQualityTest env (Some cfg))
                = Err (Errorf "test duration must be positive")).
    { unfold RunQualityTest. destruct (Z.leb_spec (TestDuration cfg) 0);
        [reflexivity | lia]. }
    rewrite E. repeat split; try (intros; lia); try discriminate.
    now left. }
  destruct (TestServers cfg) as [|s ss] eqn:Es.
  { assert (E : fst (RunQualityTest env (Some cfg))
                = Err (Errorf "no download test servers configured")).
    { unfold RunQualityTest. destruct (Z.leb_spec (TestDuration cfg) 0);
        [lia|]. now rewrite Es. }
    rewrite E. repeat split; try (intros; lia); try discriminate;
      try (intros; contradiction).
    right. now left. }
  assert (Hs : TestServers cfg <> []) by (rewrite Es; discriminate).
  rewrite <- Es in *. clear Es s ss.
  rewrite (RunQualityTest_stages env cfg Hd Hs). cbv zeta.
  destruct (sampler_error (idleProbe env) (latencyURLOf cfg)) as [Hfail Hok].
  destruct (upload_error_cases env cfg) as (Hu1 & Hu2 & Hu3).
  destruct (snd (fst (measureIdleLatency (idleProbe env) (latencyURLOf cfg))))
    as [e|] eqn:Ei.
  - (* the idle sampler failed *)
    assert (Hall : allProbesFail (idleProbe env)).
    { destruct (samples (idleProbe env) 0 numTests) eqn:Esamples.
      - now apply allProbesFail_samples.
      - exfalso. assert (Hn : ~ allProbesFail (idleProbe env)).
        { intros Hx. apply allProbesFail_samples in Hx.
          rewrite Esamples in Hx. discriminate. }
        specialize (Hok Hn). congruence. }
    assert (Ee : e = AllSamplesFailed).
    { pose proof (Hfail Hall) as E. rewrite (surjective_pairing (fst _)) in E.
      rewrite Ei in E. now injection E as _ <-. }
    subst e. cbn [fst].
    repeat split; try (intros; lia); try (intros; contradiction);
      try discriminate; try reflexivity.
    right. right. now left.
  - assert (Hsome : ~ allProbesFail (idleProbe env)).
    { intros Hall. pose proof (Hfail Hall) as E.
      rewrite (surjective_pairing (fst _)), Ei in E. discriminate. }
    destruct (snd (fst (measureUploadSpeed env cfg))) as [e|] eqn:Eu;
      cbn [fst].
    + destruct (Hu3 e eq_refl) as [->| ->].
      * assert (Hnil : UploadServers cfg = []).
        { destruct (UploadServers cfg) eqn:Esv; [reflexivity|].
          exfalso. revert Eu. unfold measureUploadSpeed. rewrite Esv.
          destruct (F64.eqb _ _); cbn; discriminate. }
        repeat split; try (intros; lia); try (intros; contradiction);
          try discriminate; try reflexivity.
        right. right. right. now left.
      * assert (Hne : UploadServers cfg <> []).
        { intros Hnil. rewrite (Hu1 Hnil) in Eu. discriminate. }
        repeat split; try (intros; lia); try (intros; contradiction);
          try discriminate; try reflexivity.
        -- intros _ _ _ _ He. exfalso.
           rewrite (upload_succeeds env cfg Hne He) in Eu. discriminate.
        -- right. right. right. now right.
    + repeat split; try (intros; lia); try (intros; contradiction);
        try discriminate.
      * intros _ _ _ Hnil. rewrite (Hu1 Hnil) in Eu. discriminate.
      * intros _ _ _ Hne He. rewrite (Hu2 Hne He) in Eu. discriminate.
      * intros _ _ _ _ _. eexists. reflexivity.
Qed.

(** ** The sampler's calls and its mean *)

Lemma sampler_log_counts (probe : nat -> ProbeOutcome) (testURL : string)
  (n i : nat) :
  let log := flat_map (fun k => eventsOf testURL (probe k)) (seq i n) in
  List.length (filter isGet log)
  = List.length (filter built (map probe (seq i n)))
  /\ (List.length (filter isGet log) <= n)%nat
  /\ filter isPost log = []
  /\ List.length (filter isSleep log) = List.length (samples probe i n)
  /\ sumZ (map sleepOf log)
     = 100 * Millisecond * Z.of_nat (List.length (samples probe i n)).
Proof.
  cbv zeta. revert i. induction n as [|n IH]; intros i.
  - cbn. repeat split; lia.
  - destruct (IH (S i)) as (H1 & H2 & H3 & H4 & H5).
    rewrite samples_step. cbn [seq flat_map map].
    rewrite !filter_app, !length_app, map_app, sumZ_app, H3, H4, H5.
    destruct (probe i) as [| |latency];
      cbn [eventsOf filter isGet isPost isSleep built sampleOf map sleepOf
           sumZ fold_right List.length app];
      rewrite ?H1; repeat split; try reflexivity; try lia.
Qed.

(** X4: the sampler calls [client.Do] once for each of its ten
    iterations whose request could be built, so ten times at most and never
    a second time for a probe that failed, each time with a GET for
    [testURL]; it never calls it with a POST; and it sleeps 100 ms once
    per successful probe, a second in total at most. (The count is of the
    sampler's calls: a client that is redirected makes further requests
    inside the one call.) *)
Theorem sampler_request_budget (probe : nat -> ProbeOutcome)
  (testURL : string) :
  let log := snd (measureIdleLatency probe testURL) in
  let successes := Z.of_nat (List.length (samples probe 0 numTests)) in
  List.length (filter isGet log)
  = List.length (filter built (map probe (seq 0 numTests)))
  /\ (List.length (filter isGet log) <= 10)%nat
  /\ Forall (fun e => isGet e = true -> e = EvGet testURL) log
  /\ filter isPost log = []
  /\ Z.of_nat (List.length (filter isSleep log)) = successes
  /\ sumZ (map sleepOf log) = 100 * Millisecond * successes
  /\ sumZ (map sleepOf log) <= Second.
Proof.
  cbv zeta. rewrite measureIdleLatency_log.
  destruct (sampler_log_counts probe testURL numTests 0)
    as (H1 & H2 & H3 & H4 & H5).
  pose proof (samples_length probe 0 numTests) as Hlen.
  unfold numTests in *.
  repeat split; try assumption.
  - rewrite <- measureIdleLatency_log. apply sampler_log_events.
    + reflexivity.
    + discriminate.
  - now rewrite H4.
  - rewrite H5. unfold Millisecond, Second. lia.
Qed.

Lemma sampler_value (probe : nat -> ProbeOutcome) (testURL : string) :
  let xs := samples probe 0 numTests in
  Forall (fun d => 0 <= d < 2 ^ 59) xs -> xs <> [] ->
  fst (measureIdleLatency probe testURL) = (F64.of_Z (meanMillis xs), None).
Proof.
  cbv zeta. remember (samples probe 0 numTests) as xs eqn:Exs.
  intros Hxs Hne.
  assert (Hlen : (List.length xs <= 10)%nat)
    by (rewrite Exs; apply samples_length).
  pose proof (sumZ_bound (2 ^ 59) xs Hxs) as Hsum.
  assert (Hpos : Forall (fun d => 0 <= d) xs).
  { eapply Forall_impl; [|exact Hxs]. simpl. intros; lia. }
  destruct
    (probeLoop_counters probe testURL numTests 0
       {| totalLatency := 0; successCount := 0; samplerLog := [] |})
    as [Htot Hcnt].
  { rewrite <- Exs. exact Hpos. }
  { simpl. lia. }
  { rewrite <- Exs. cbn [totalLatency].
    apply Nat2Z.inj_le in Hlen. change (Z.of_nat 10) with 10 in Hlen.
    apply (ten_samples_fit _ _ Hlen Hsum). }
  rewrite <- Exs in Htot, Hcnt. cbn [totalLatency successCount] in Htot, Hcnt.
  rewrite Z.add_0_l in Htot, Hcnt.
  assert (Hn : 0 < Z.of_nat (List.length xs))
    by (destruct xs; [contradiction | cbn [List.length]; lia]).
  unfold measureIdleLatency. rewrite Hcnt, Htot.
  destruct (Z.eqb_spec (Z.of_nat (List.length xs)) 0) as [Hz|_]; [lia|].
  cbn [fst]. unfold Milliseconds, meanMillis.
  rewrite (Z.quot_div_nonneg (sumZ xs)) by lia.
  rewrite Z.quot_div_nonneg by (try apply Z.div_pos; lia).
  rewrite Z.div_div by lia. reflexivity.
Qed.

Lemma sumZ_between (lo hi : Z) (xs : list Z) :
  Forall (fun d => lo <= d <= hi) xs ->
  Z.of_nat (List.length xs) * lo <= sumZ xs
  <= Z.of_nat (List.length xs) * hi.
Proof.
  induction 1 as [|x xs Hx _ IH]; [cbn; lia|].
  change (sumZ (x :: xs)) with (x + sumZ xs).
  change (List.length (x :: xs)) with (S (List.length xs)).
  rewrite Nat2Z.inj_succ. lia.
Qed.

(** X5: the latency the sampler reports lies between its fastest and its
    slowest successful sample, each taken in whole milliseconds: with every
    sample in [lo, hi] nanoseconds the result is the float64 of an integer
    between lo/10^6 and hi/10^6 (rounded down), and there is no error. *)
Theorem sampler_mean_within_samples (probe : nat -> ProbeOutcome)
  (testURL : string) (lo hi : Duration) :
  0 <= lo -> hi < 2 ^ 59 ->
  Forall (fun d => lo <= d <= hi) (samples probe 0 numTests) ->
  ~ allProbesFail probe ->
  exists ms,
    fst (measureIdleLatency probe testURL) = (F64.of_Z ms, None)
    /\ lo / 1000000 <= ms <= hi / 1000000.
Proof.
  unfold Duration in *. intros Hlo Hhi Hxs Hsome.
  assert (Hne : samples probe 0 numTests <> [])
    by (intros E; apply Hsome; now apply allProbesFail_samples).
  exists (meanMillis (samples probe 0 numTests)). split.
  - apply sampler_value; [|exact Hne].
    eapply Forall_impl; [|exact Hxs]. simpl. intros; lia.
  - pose proof (sumZ_between lo hi _ Hxs) as Hsum.
    unfold meanMillis.
    remember (samples probe 0 numTests) as xs eqn:Exs in *.
    assert (Hn : 0 < Z.of_nat (List.length xs))
      by (destruct xs; [contradiction | cbn [List.length]; lia]).
    remember (Z.of_nat (List.length xs)) as n eqn:En in *.
    split.
    + rewrite <- (Z.div_mul_cancel_l lo 1000000 n) by (clear - Hn; lia).
      apply Z.div_le_mono; [clear - Hn; lia | rewrite En; apply Hsum].
    + rewrite <- (Z.div_mul_cancel_l hi 1000000 n) by (clear - Hn; lia).
      apply Z.div_le_mono; [clear - Hn; lia | rewrite En; apply Hsum].
Qed.

Lemma sampler_mean_within_samples_witness :
  (0 <= 7000000 /\ 7000000 < 2 ^ 59
   /\ Forall (fun d => 7000000 <= d <= 7000000)
             (samples firstProbeFails 0 numTests)
   /\ ~ allProbesFail firstProbeFails)
  /\ exists ms,
       fst (measureIdleLatency firstProbeFails "u") = (F64.of_Z ms, None)
       /\ 7000000 / 1000000 <= ms <= 7000000 / 1000000.
Proof.
  assert (H1 : 0 <= 7000000) by lia.
  assert (H2 : 7000000 < 2 ^ 59) by reflexivity.
  assert (H3 : Forall (fun d => 7000000 <= d <= 7000000)
                 (samples firstProbeFails 0 numTests)).
  { replace (samples firstProbeFails 0 numTests) with (repeat 7000000 9)
      by (vm_compute; reflexivity).
    cbn [repeat]. repeat (constructor; [lia|]). constructor. }
  assert (H4 : ~ allProbesFail firstProbeFails).
  { intros Hall. apply (Hall 1%nat (7 * Millisecond)); [unfold numTests; lia|].
    reflexivity. }
  split; [repeat split; assumption|].
  apply (sampler_mean_within_samples firstProbeFails "u" 7000000 7000000
           H1 H2 H3 H4).
Defined.

(** ** Workers, once more *)

Lemma uploadGain_accepted (chunkSize : Z) (o : UploadOutcome) :
  uploadGain chunkSize o = if accepted o then chunkSize else 0.
Proof. destruct o; reflexivity. Qed.

Lemma sumZ_gain_accepted (chunkSize : Z) (sc : Script UploadOutcome)
  (l : list nat) :
  sumZ (map (fun k => uploadGain chunkSize (snd (attempt sc k))) l)
  = chunkSize
    * Z.of_nat
        (List.length (filter (fun k => accepted (snd (attempt sc k))) l)).
Proof.
  induction l as [|k l IH]; [cbn; lia|].
  cbn [map filter]. change (sumZ (?x :: ?r)) with (x + sumZ r).
  rewrite IH, uploadGain_accepted.
  destruct (accepted (snd (attempt sc k))); cbn [List.length];
    rewrite ?Nat2Z.inj_succ; lia.
Qed.

Lemma sumBytes_map {A : Type} (f : A -> Worker) (g : A -> nat) (c : Z)
  (l : list A) :
  (forall a, wBytes (f a) = c * Z.of_nat (g a)) ->
  sumBytes (map f l) = c * Z.of_nat (sumNat (map g l)).
Proof.
  intros H. induction l as [|a l IH]; [cbn; lia|].
  cbn [map sumBytes sumNat fold_right].
  fold (sumBytes (map f l)) (sumNat (map g l)).
  rewrite H, IH, Nat2Z.inj_add. lia.
Qed.

Lemma upload_chunks_total (env : Env) (config : TestConfig) :
  sumBytes (uploadWorkers env config)
  = effectiveChunkSize config
    * Z.of_nat
        (sumNat
           (map (fun i =>
                   acceptedAmong (ulWorker env i)
                     (wNext (uploadWorker env config i)))
                (upto (NumConnections config)))).
Proof.
  unfold uploadWorkers. apply sumBytes_map. intros i.
  destruct (uploadWorker_spec env config i) as [_ Hinv].
  rewrite (inv_bytes _ _ _ _ _ _ Hinv). apply sumZ_gain_accepted.
Qed.

(** X6: the [int64] byte total of an upload phase is the chunk size times
    the number of accepted responses (status in [200, 400)) among the
    attempts the workers made, wrapped to 64 bits; nothing a server sends
    back apart from the status enters it. Where that product is below 2^63
    nothing wraps: the total is the product and is not negative. It is
    from this total that a phase with an endpoint and a measurable
    duration computes its bitrate. *)
Theorem upload_total_counts_accepted_chunks (env : Env) (config : TestConfig) :
  let acceptedCount :=
    Z.of_nat
      (sumNat
         (map (fun i =>
                 acceptedAmong (ulWorker env i)
                   (wNext (uploadWorker env config i)))
              (upto (NumConnections config)))) in
  let totalBytes := wrap64 (sumBytes (uploadWorkers env config)) in
  totalBytes = wrap64 (effectiveChunkSize config * acceptedCount)
  /\ (effectiveChunkSize config * acceptedCount < 2 ^ 63 ->
      totalBytes = effectiveChunkSize config * acceptedCount
      /\ 0 <= totalBytes)
  /\ (UploadServers config <> [] -> 0 < ulElapsed env ->
      fst (measureUploadSpeed env config)
      = (megabits (wrap64 (effectiveChunkSize config * acceptedCount))
           (Seconds (ulElapsed env)), None)).
Proof.
  intros acceptedCount totalBytes. subst totalBytes.
  rewrite upload_chunks_total. fold acceptedCount.
  split; [reflexivity|]. split.
  - intros Hfit.
    assert (Hpos : 0 <= effectiveChunkSize config * acceptedCount).
    { pose proof (effectiveChunkSize_pos config).
      assert (0 <= acceptedCount) by (subst acceptedCount; lia). nia. }
    rewrite wrap64_small by lia. split; [reflexivity | exact Hpos].
  - intros Hs He. rewrite (upload_succeeds env config Hs He).
    rewrite upload_chunks_total. reflexivity.
Qed.

(** On the flaky network each of the four workers of the default
    configuration begins three attempts before the deadline; the first is
    refused and the other two are accepted: eight chunks of 512 KiB. *)
Lemma upload_total_counts_accepted_chunks_witness :
  wrap64 (sumBytes (uploadWorkers flakyUploadEnv DefaultConfig))
  = 8 * (512 * 1024).
Proof.
  assert (E : sumNat
                (map (fun i =>
                        acceptedAmong (ulWorker flakyUploadEnv i)
                          (wNext (uploadWorker flakyUploadEnv DefaultConfig i)))
                     (upto (NumConnections DefaultConfig))) = 8%nat)
    by (vm_compute; reflexivity).
  destruct (upload_total_counts_accepted_chunks flakyUploadEnv DefaultConfig)
    as (_ & Hfit & _).
  cbv zeta in Hfit. rewrite E in Hfit.
  change (effectiveChunkSize DefaultConfig) with (512 * 1024) in Hfit.
  rewrite (proj1 (Hfit eq_refl)). reflexivity.
Defined.

Section Cancelled.

Variable env : Env.
Variable deadline : Time.
Variable O : Type.
Variable sc : Script O.
Variable gain : O -> Z.
Variable events : O -> list Event.
Variable w : Worker.
Variable t : Time.
Hypothesis cancelled : cancelAt env = Some t.
Hypothesis invariant : loopInv env deadline sc gain events w.

Lemma attempts_before_cancellation (k : nat) :
(k < wNext w)%nat -> startOf sc k < t.
Proof.
intros Hk. pose proof (inv_live _ _ _ _ _ _ invariant k Hk) as Hl.
unfold live, ctxDone in Hl. rewrite cancelled in Hl.
apply andb_prop in Hl. destruct Hl as [_ Hl].
apply negb_true_iff, Z.leb_gt in Hl. exact Hl.
Qed.

Lemma cancelled_before_start :
t <= firstNow sc -> wNext w = 0%nat /\ wBytes w = 0 /\ wLog w = [].
Proof.
intros Ht.
assert (Hz : wNext w = 0%nat).
{ destruct (wNext w) eqn:E; [reflexivity|]. exfalso.
  assert (H0 : (0 < wNext w)%nat) by lia.
  pose proof (attempts_before_cancellation 0%nat H0) as Hlt.
  cbn [startOf] in Hlt. lia. }
split; [exact Hz|].
rewrite (inv_bytes _ _ _ _ _ _ invariant), (inv_log _ _ _ _ _ _ invariant),
  Hz.
split; reflexivity.
Qed.

End Cancelled.

(** X7: once the context is cancelled no worker begins another attempt:
    every attempt of a download or of an upload worker begins before the
    instant of cancellation, and a worker that reaches its first loop head
    after it issues no request and adds no byte. *)
Theorem no_attempt_after_cancellation
  (env : Env) (config : TestConfig) (downloadURL : string) (i : nat)
  (t : Time) :
  cancelAt env = Some t ->
  let down := downloadWorker env config downloadURL i in
  let up := uploadWorker env config i in
  (forall k, (k < wNext down)%nat -> startOf (dlWorker env i) k < t)
  /\ (forall k, (k < wNext up)%nat -> startOf (ulWorker env i) k < t)
  /\ (t <= firstNow (dlWorker env i) ->
      wNext down = 0%nat /\ wBytes down = 0 /\ wLog down = [])
  /\ (t <= firstNow (ulWorker env i) ->
      wNext up = 0%nat /\ wBytes up = 0 /\ wLog up = []).
Proof.
  intros Hc down up.
  destruct (downloadWorker_spec env config downloadURL i) as [_ Hd].
  destruct (uploadWorker_spec env config i) as [_ Hu].
  fold down in Hd. fold up in Hu.
  split; [|split; [|split]].
  - intros k. eapply attempts_before_cancellation; eassumption.
  - intros k. eapply attempts_before_cancellation; eassumption.
  - eapply cancelled_before_start; eassumption.
  - eapply cancelled_before_start; eassumption.
Qed.

Lemma no_attempt_after_cancellation_witness :
  cancelAt cancelledEnv = Some 3500000000
  /\ wNext (uploadWorker cancelledEnv DefaultConfig 0) = 2%nat
  /\ forall k, (k < wNext (uploadWorker cancelledEnv DefaultConfig 0))%nat ->
               startOf (ulWorker cancelledEnv 0) k < 3500000000.
Proof.
  split; [reflexivity|]. split; [reflexivity|].
  apply (proj1 (proj2 (no_attempt_after_cancellation cancelledEnv
                         DefaultConfig "" 0 3500000000 eq_refl))).
Defined.

(** X8: a download worker leaves its loop; each of its attempts begins
    before [start + TestDuration], and without cancellation it makes all
    the attempts that do; it has added what [io.Copy] counted for each
    attempt that got a response and nothing for those that failed. Bodies
    being non-negative, so is its total. *)
Theorem download_worker_accounts
  (env : Env) (config : TestConfig) (downloadURL : string) (i : nat) :
  let sc := dlWorker env i in
  let deadline := dlStart env + TestDuration config in
  let w := downloadWorker env config downloadURL i in
  wExited w = true
  /\ (forall k, (k < wNext w)%nat -> startOf sc k < deadline)
  /\ (cancelAt env = None ->
      forall k, (k < wNext w)%nat <-> startOf sc k < deadline)
  /\ wBytes w
     = sumZ (map (fun k => downloadGain (snd (attempt sc k)))
                 (seq 0 (wNext w)))
  /\ ((forall k bytes, snd (attempt sc k) = DlBody bytes -> 0 <= bytes) ->
      0 <= wBytes w).
Proof.
  intros sc deadline w.
  destruct (downloadWorker_spec env config downloadURL i) as [Hexit Hinv].
  fold w sc in Hexit, Hinv. change (downloadDeadline env config) with deadline
    in Hinv.
  split; [exact Hexit|]. split; [|split; [|split]].
  - intros k Hk. pose proof (inv_live _ _ _ _ _ _ Hinv k Hk) as Hl.
    unfold live in Hl. apply andb_prop in Hl. now apply Z.ltb_lt.
  - intros Hc.
    exact (attempts_until_deadline env deadline _ sc downloadGain
             (downloadEvents downloadURL) w Hc Hexit Hinv).
  - apply (inv_bytes _ _ _ _ _ _ Hinv).
  - intros Hpos. rewrite (inv_bytes _ _ _ _ _ _ Hinv).
    apply sumZ_nonneg. apply Forall_map, Forall_forall. intros k _.
    destruct (snd (attempt sc k)) as [| |bytes] eqn:E; cbn [downloadGain];
      try lia.
    now apply (Hpos k).
Qed.



(** ** The rating of a result *)

Lemma ltb_above_smaller (m1 m2 : positive) (e1 e2 : Z) (x : float64) :
  e1 < e2 ->
  F64.ltb (S754_finite false m2 e2) x = true ->
  F64.ltb (S754_finite false m1 e1) x = true.
Proof.
  intros He. unfold F64.ltb, SFltb.
  destruct x as [sx|sx| |sx mx ex]; cbn [SFcompare]; try congruence.
  destruct sx; [congruence|].
  destruct (Z.compare_spec e2 ex) as [E|E|E]; try congruence;
    destruct (Z.compare_spec e1 ex) as [E'|E'|E']; try congruence; lia.
Qed.

Lemma ltb_below_larger (m1 m2 : positive) (e1 e2 : Z) (x : float64) :
  e1 < e2 ->
  F64.ltb x (S754_finite false m1 e1) = true ->
  F64.ltb x (S754_finite false m2 e2) = true.
Proof.
  intros He. unfold F64.ltb, SFltb.
  destruct x as [sx|sx| |sx mx ex]; cbn [SFcompare]; try congruence.
  destruct sx; [congruence|].
  destruct (Z.compare_spec ex e1) as [E|E|E]; try congruence;
    destruct (Z.compare_spec ex e2) as [E'|E'|E']; try congruence; lia.
Qed.

Lemma downlinkScore_cases (r : QualityResult) (s : Z) :
  (Cli.downlinkScore r s = s + 3
   /\ F64.ltb (F64.of_Z 25) (DownlinkCapacity r) = true)
  \/ (Cli.downlinkScore r s = s + 2
      /\ F64.ltb (F64.of_Z 25) (DownlinkCapacity r) = true)
  \/ (Cli.downlinkScore r s = s + 1
      /\ F64.ltb (F64.of_Z 10) (DownlinkCapacity r) = true)
  \/ (Cli.downlinkScore r s = s
      /\ F64.ltb (F64.of_Z 10) (DownlinkCapacity r) = false).
Proof.
  unfold Cli.downlinkScore.
  destruct (F64.ltb (F64.of_Z 50) _) eqn:E50.
  { left. split; [reflexivity|]. revert E50.
    change (F64.of_Z 50) with (S754_finite false 7036874417766400 (-47)).
    change (F64.of_Z 25) with (S754_finite false 7036874417766400 (-48)).
    apply ltb_above_smaller. lia. }
  destruct (F64.ltb (F64.of_Z 25) _) eqn:E25; [right; left; now split|].
  destruct (F64.ltb (F64.of_Z 10) _) eqn:E10;
    right; right; [left | right]; now split.
Qed.

Lemma uplinkScore_cases (r : QualityResult) (s : Z) :
  (Cli.uplinkScore r s = s + 3
   /\ F64.ltb (F64.of_Z 10) (UplinkCapacity r) = true)
  \/ (Cli.uplinkScore r s = s + 2
      /\ F64.ltb (F64.of_Z 10) (UplinkCapacity r) = true)
  \/ (Cli.uplinkScore r s = s + 1
      /\ F64.ltb (F64.of_Z 5) (UplinkCapacity r) = true)
  \/ (Cli.uplinkScore r s = s
      /\ F64.ltb (F64.of_Z 5) (UplinkCapacity r) = false).
Proof.
  unfold Cli.uplinkScore.
  destruct (F64.ltb (F64.of_Z 20) _) eqn:E20.
  { left. split; [reflexivity|]. revert E20.
    change (F64.of_Z 20) with (S754_finite false 5629499534213120 (-48)).
    change (F64.of_Z 10) with (S754_finite false 5629499534213120 (-49)).
    apply ltb_above_smaller. lia. }
  destruct (F64.ltb (F64.of_Z 10) _) eqn:E10; [right; left; now split|].
  destruct (F64.ltb (F64.of_Z 5) _) eqn:E5;
    right; right; [left | right]; now split.
Qed.

Lemma latencyScore_cases (r : QualityResult) (s : Z) :
  (Cli.latencyScore r s = s + 3
   /\ F64.ltb (IdleLatency r) (F64.of_Z 50) = true)
  \/ (Cli.latencyScore r s = s + 2
      /\ F64.ltb (IdleLatency r) (F64.of_Z 50) = true)
  \/ (Cli.latencyScore r s = s + 1
      /\ F64.ltb (IdleLatency r) (F64.of_Z 100) = true)
  \/ (Cli.latencyScore r s = s
      /\ F64.ltb (IdleLatency r) (F64.of_Z 100) = false).
Proof.
  unfold Cli.latencyScore.
  destruct (F64.ltb _ (F64.of_Z 20)) eqn:E20.
  { left. split; [reflexivity|]. revert E20.
    change (F64.of_Z 20) with (S754_finite false 5629499534213120 (-48)).
    change (F64.of_Z 50) with (S754_finite false 7036874417766400 (-47)).
    apply ltb_below_larger. lia. }
  destruct (F64.ltb _ (F64.of_Z 50)) eqn:E50; [right; left; now split|].
  destruct (F64.ltb _ (F64.of_Z 100)) eqn:E100;
    right; right; [left | right]; now split.
Qed.

(** The rating without colours scores a result as the coloured one
    does. *)
Lemma plain_rating (r : QualityResult) :
  Plain.calculateOverallQuality r =
  if 8 <=? Cli.qualityScore r then "⭐ Excellent"
  else if 6 <=? Cli.qualityScore r then "✅ Good"
  else if 4 <=? Cli.qualityScore r then "⚠️  Fair"
  else "❌ Poor".
Proof. reflexivity. Qed.

Lemma quality_of_score (r : QualityResult) :
  let score := Cli.qualityScore r in
  (8 <= score ->
   Cli.calculateOverallQuality r = ("⭐ Excellent", Cli.Green)
   /\ Plain.calculateOverallQuality r = "⭐ Excellent")
  /\ (6 <= score < 8 ->
      Cli.calculateOverallQuality r = ("✅ Good", Cli.Cyan)
      /\ Plain.calculateOverallQuality r = "✅ Good")
  /\ (4 <= score < 6 ->
      Cli.calculateOverallQuality r = ("⚠️  Fair", Cli.Yellow)
      /\ Plain.calculateOverallQuality r = "⚠️  Fair")
  /\ (score < 4 ->
      Cli.calculateOverallQuality r = ("❌ Poor", Cli.Red)
      /\ Plain.calculateOverallQuality r = "❌ Poor").
Proof.
  cbv zeta. rewrite plain_rating. unfold Cli.calculateOverallQuality.
  cbv zeta.
  destruct (Z.leb_spec 8 (Cli.qualityScore r));
    destruct (Z.leb_spec 6 (Cli.qualityScore r));
    destruct (Z.leb_spec 4 (Cli.qualityScore r));
    repeat split; intros; try lia; reflexivity.
Qed.

Lemma low_throughput_scores (r : QualityResult) :
  F64.ltb (F64.of_Z 10) (DownlinkCapacity r) = false ->
  F64.ltb (F64.of_Z 5) (UplinkCapacity r) = false ->
  0 <= Cli.qualityScore r <= 3.
Proof.
  intros Hd Hu. unfold Cli.qualityScore.
  destruct (downlinkScore_cases r 0) as [[E H]|[[E H]|[[E H]|[E H]]]];
    try congruence;
    try (exfalso; revert H;
         change (F64.of_Z 25) with (S754_finite false 7036874417766400 (-48));
         intros H;
         apply (ltb_above_smaller 5629499534213120 _ (-49)) in H; [|lia];
         change (S754_finite false 5629499534213120 (-49)) with (F64.of_Z 10)
           in H; congruence).
  rewrite E.
  destruct (uplinkScore_cases r 0) as [[E' H']|[[E' H']|[[E' H']|[E' H']]]];
    try congruence;
    try (exfalso; revert H';
         change (F64.of_Z 10) with (S754_finite false 5629499534213120 (-49));
         intros H';
         apply (ltb_above_smaller 5629499534213120 _ (-50)) in H'; [|lia];
         change (S754_finite false 5629499534213120 (-50)) with (F64.of_Z 5)
           in H'; congruence).
  rewrite E'.
  destruct (latencyScore_cases r 0) as [[E2 _]|[[E2 _]|[[E2 _]|[E2 _]]]];
    rewrite E2; lia.
Qed.

(** X10: a result without throughput is rated Poor whatever its latency:
    when the downlink is not above 10 Mbps and the uplink not above 5 Mbps
    (a NaN is above nothing), at most the three points of the latency
    remain, and both versions of calculateOverallQuality answer Poor, the
    coloured one in red. *)
Theorem no_throughput_is_poor (r : QualityResult) :
  F64.ltb (F64.of_Z 10) (DownlinkCapacity r) = false ->
  F64.ltb (F64.of_Z 5) (UplinkCapacity r) = false ->
  Cli.calculateOverallQuality r = ("❌ Poor", Cli.Red)
  /\ Plain.calculateOverallQuality r = "❌ Poor"
  /\ 0 <= Cli.qualityScore r <= 3.
Proof.
  intros Hd Hu. pose proof (low_throughput_scores r Hd Hu) as Hs.
  destruct (quality_of_score r) as (_ & _ & _ & Hpoor).
  destruct Hpoor as [H1 H2]; [lia|]. repeat split; try assumption; lia.
Qed.

Lemma no_throughput_is_poor_witness :
  (F64.ltb (F64.of_Z 10) (DownlinkCapacity stalledResult) = false
   /\ F64.ltb (F64.of_Z 5) (UplinkCapacity stalledResult) = false)
  /\ Cli.calculateOverallQuality stalledResult = ("❌ Poor", Cli.Red).
Proof.
  assert (H1 : F64.ltb (F64.of_Z 10) (DownlinkCapacity stalledResult) = false)
    by reflexivity.
  assert (H2 : F64.ltb (F64.of_Z 5) (UplinkCapacity stalledResult) = false)
    by reflexivity.
  split; [split; assumption|].
  apply (no_throughput_is_poor stalledResult H1 H2).
Defined.

(** X11: the rating Excellent takes all three metrics: a result rated
    Excellent has a downlink above 25 Mbps, an uplink above 10 Mbps and an
    idle latency below 50 ms (eight of nine points cannot be had with any
    metric in its two lower bands). The score is between 0 and 9, and the
    two versions of the rating agree on every result. *)
Theorem excellent_needs_all_three (r : QualityResult) :
  fst (Cli.calculateOverallQuality r) = "⭐ Excellent" ->
  F64.ltb (F64.of_Z 25) (DownlinkCapacity r) = true
  /\ F64.ltb (F64.of_Z 10) (UplinkCapacity r) = true
  /\ F64.ltb (IdleLatency r) (F64.of_Z 50) = true
  /\ 8 <= Cli.qualityScore r <= 9
  /\ Plain.calculateOverallQuality r = fst (Cli.calculateOverallQuality r).
Proof.
  intros Hx.
  assert (Hs : 8 <= Cli.qualityScore r).
  { revert Hx. unfold Cli.calculateOverallQuality.
    destruct (Z.leb_spec 8 (Cli.qualityScore r)); [intros; assumption|].
    destruct (6 <=? _); [cbn [fst]; discriminate|].
    destruct (4 <=? _); cbn [fst]; discriminate. }
  destruct (quality_of_score r) as (Hexc & _).
  destruct (Hexc Hs) as [E1 E2]. rewrite E1, E2. cbn [fst].
  revert Hs. unfold Cli.qualityScore.
  destruct (downlinkScore_cases r 0) as [[E H]|[[E H]|[[E H]|[E H]]]];
    destruct (uplinkScore_cases r (Cli.downlinkScore r 0))
      as [[E' H']|[[E' H']|[[E' H']|[E' H']]]];
    destruct (latencyScore_cases r
                (Cli.uplinkScore r (Cli.downlinkScore r 0)))
      as [[E2' H2]|[[E2' H2]|[[E2' H2]|[E2' H2]]]];
    rewrite E2', E', E; intros Hs; try lia; repeat split; try assumption;
    lia.
Qed.

Lemma excellent_needs_all_three_witness :
  fst (Cli.calculateOverallQuality fibreResult) = "⭐ Excellent"
  /\ F64.ltb (F64.of_Z 25) (DownlinkCapacity fibreResult) = true.
Proof.
  assert (H : fst (Cli.calculateOverallQuality fibreResult) = "⭐ Excellent")
    by reflexivity.
  split; [exact H|].
  apply (proj1 (excellent_needs_all_three fibreResult H)).
Defined.

(** X12: a completed run in which no byte moved in either direction (the
    download phase taking a positive time) reports +0 Mbps down and up and
    is rated Poor, whatever the latencies it measured. *)
Theorem dead_network_is_rated_poor
  (env : Env) (config : TestConfig) (r : QualityResult) :
  fst (RunQualityTest env (Some config)) = Ok r ->
  sumBytes (downloadWorkers env config (downloadURLOf config)) = 0 ->
  sumBytes (uploadWorkers env config) = 0 ->
  0 < dlElapsed env -> 0 <= ulElapsed env ->
  DownlinkCapacity r = F64.zero
  /\ UplinkCapacity r = F64.zero
  /\ Cli.calculateOverallQuality r = ("❌ Poor", Cli.Red)
  /\ Plain.calculateOverallQuality r = "❌ Poor".
Proof.
  intros Hrun Hdl Hul Hde Hue.
  assert (Hd : 0 < TestDuration config).
  { destruct (Z.leb_spec (TestDuration config) 0) as [H|H]; [|exact H].
    exfalso. revert Hrun. unfold RunQualityTest.
    destruct (Z.leb_spec (TestDuration config) 0); [discriminate | lia]. }
  assert (Hs : TestServers config <> []).
  { intros E. revert Hrun. unfold RunQualityTest.
    destruct (TestDuration config <=? 0); [discriminate|]. rewrite E.
    discriminate. }
  rewrite (RunQualityTest_stages env config Hd Hs) in Hrun. cbv zeta in Hrun.
  destruct (snd (fst (measureIdleLatency _ _))); [discriminate|].
  destruct (snd (fst (measureUploadSpeed env config))) eqn:Eu;
    [discriminate|].
  cbn [fst] in Hrun. injection Hrun as <-.
  assert (Hne : UploadServers config <> []).
  { intros E. revert Eu. unfold measureUploadSpeed. rewrite E. discriminate. }
  assert (Hpos : 0 < ulElapsed env).
  { destruct (Z.eq_dec (ulElapsed env) 0) as [E|E]; [|lia].
    exfalso. revert Eu. unfold measureUploadSpeed.
    destruct (UploadServers config); [contradiction|]. rewrite E.
    discriminate. }
  assert (Edown :
            fst (fst (fst (measureDownloadSpeed env config
                             (downloadURLOf config) (latencyURLOf config))))
            = F64.zero).
  { unfold measureDownloadSpeed.
    destruct (measureIdleLatency _ _) as [[latency e] l]. cbn [fst].
    rewrite Hdl. change (wrap64 0) with 0. now apply megabits_zero. }
  assert (Eup : fst (fst (measureUploadSpeed env config)) = F64.zero).
  { rewrite (upload_succeeds env config Hne Hpos), Hul. cbn [fst].
    change (wrap64 0) with 0. now apply megabits_zero. }
  cbn [DownlinkCapacity UplinkCapacity]. rewrite Edown, Eup.
  split; [reflexivity|]. split; [reflexivity|].
  set (r := {| UplinkCapacity := _ |}).
  assert (Hscore : 0 <= Cli.qualityScore r <= 3).
  { apply low_throughput_scores; subst r;
      cbn [DownlinkCapacity UplinkCapacity]; rewrite ?Edown, ?Eup;
      reflexivity. }
  destruct (quality_of_score r) as (_ & _ & _ & Hpoor).
  apply Hpoor. lia.
Qed.

Lemma dead_network_is_rated_poor_witness :
  exists r,
    fst (RunQualityTest unreachableEnv (Some DefaultConfig)) = Ok r
    /\ Cli.calculateOverallQuality r = ("❌ Poor", Cli.Red).
Proof.
  eexists. split; [vm_compute; reflexivity|].
  refine (proj1 (proj2 (proj2 (dead_network_is_rated_poor unreachableEnv
                                 DefaultConfig _ _ _ _ _ _)))).
  - vm_compute. reflexivity.
  - reflexivity.
  - reflexivity.
  - reflexivity.
  - discriminate.
Defined.

(** ** The bars *)

Lemma fold_left_ext_in {A B : Type} (f g : A -> B -> A) (l : list B) (a : A) :
  (forall x b, In b l -> f x b = g x b) -> fold_left f l a = fold_left g l a.
Proof.
  revert a. induction l as [|b l IH]; intros a H; [reflexivity|].
  cbn [fold_left]. rewrite H by now left. apply IH.
  intros x c Hc. apply H. now right.
Qed.

Lemma barLoop_cells (filled : Z) :
  filled <= 20 ->
  Plain.barLoop filled "[" = String.append "[" (Plain.cells (Z.to_nat filled)).
Proof.
  intros Hf. unfold Plain.barLoop.
  rewrite (fold_left_ext_in _
             (fun (bar : string) (i : nat) =>
                if (i <? Z.to_nat filled)%nat then String.append bar "█"
                else String.append bar "░")).
  - assert (Hk : (Z.to_nat filled <= 20)%nat) by lia.
    generalize dependent (Z.to_nat filled). intros k Hk.
    do 21 (destruct k as [|k]; [reflexivity|]). lia.
  - intros bar i _.
    destruct (Z.ltb_spec (Z.of_nat i) filled), (Nat.ltb_spec i (Z.to_nat filled));
      try reflexivity; lia.
Qed.

(** X13: a bar is twenty cells wide whatever it is asked to show: the
    performance bar and the latency bar are an opening bracket, k full
    cells, 20 - k empty ones, and the closing bracket with the formatted
    value, for a k of 20 at most, also for values beyond the scale,
    negative values, infinities and NaN (whatever [int] makes of them). A
    throughput of zero draws the empty bar and a latency of zero the full
    one. *)
Theorem bars_are_twenty_cells (other : float64 -> Z)
  (sprintf2 : float64 -> string) :
  (forall value maxValue,
     exists k, (k <= 20)%nat
       /\ Plain.getPerformanceBar other sprintf2 value maxValue
          = String.append (String.append "[" (Plain.cells k))
              (String.append "] " (String.append (sprintf2 value) " Mbps")))
  /\ (forall latency,
        exists k, (k <= 20)%nat
          /\ Plain.getLatencyBar other sprintf2 latency
             = String.append (String.append "[" (Plain.cells k))
                 (String.append "] "
                    (String.append (sprintf2 latency) " ms")))
  /\ Plain.getPerformanceBar other sprintf2 F64.zero (F64.of_Z 100)
     = String.append (String.append "[" (Plain.cells 0))
         (String.append "] " (String.append (sprintf2 F64.zero) " Mbps"))
  /\ Plain.getLatencyBar other sprintf2 F64.zero
     = String.append (String.append "[" (Plain.cells 20))
         (String.append "] " (String.append (sprintf2 F64.zero) " ms")).
Proof.
  split; [|split; [|split]].
  - intros value maxValue. unfold Plain.getPerformanceBar.
    set (x := intOf other _). unfold Plain.barLength.
    destruct (Z.ltb_spec 20 x) as [H|H].
    + exists 20%nat. split; [lia|]. now rewrite barLoop_cells by lia.
    + exists (Z.to_nat x). split; [lia|]. now rewrite barLoop_cells by lia.
  - intros latency. unfold Plain.getLatencyBar.
    set (x := intOf other _). unfold Plain.barLength.
    destruct (Z.ltb_spec x 0) as [H0|H0].
    + destruct (Z.ltb_spec 20 0); [lia|].
      exists 0%nat. split; [lia|]. now rewrite barLoop_cells by lia.
    + destruct (Z.ltb_spec 20 x) as [H|H].
      * exists 20%nat. split; [lia|]. now rewrite barLoop_cells by lia.
      * exists (Z.to_nat x). split; [lia|]. now rewrite barLoop_cells by lia.
  - reflexivity.
  - reflexivity.
Qed.

(** ** The command line *)

(** X14: what -d and -q make of the run. A quick test lasts five seconds
    whatever -d says and never ends with a configuration error. Without
    -q, a -d of zero or less makes the run return "test duration must be
    positive" before any request; so does a -d from 9223372037 to
    18446744073 seconds, whose nanoseconds wrap to a negative int64; a -d
    from 1 to 9223372036 is taken as given and passes the check. -c is not
    checked at all. *)
Theorem duration_flag (env : Env) (duration connections : Z) :
  (TestDuration (Cli.mainConfig duration connections true) = 5 * Second
   /\ forall msg,
        fst (RunQualityTest env
               (Some (Cli.mainConfig duration connections true)))
        <> Err (Errorf msg))
  /\ (- 9223372036 <= duration <= 0
      \/ 9223372037 <= duration <= 18446744073 ->
      RunQualityTest env (Some (Cli.mainConfig duration connections false))
      = (Err (Errorf "test duration must be positive"), []))
  /\ (1 <= duration <= 9223372036 ->
      TestDuration (Cli.mainConfig duration connections false)
      = duration * 1000000000
      /\ forall msg,
           fst (RunQualityTest env
                  (Some (Cli.mainConfig duration connections false)))
           <> Err (Errorf msg))
  /\ NumConnections (Cli.mainConfig duration connections false) = connections.
Proof.
  assert (Hvalid : forall cfg, 0 < TestDuration cfg ->
            TestServers cfg = TestServers DefaultConfig ->
            forall msg, fst (RunQualityTest env (Some cfg)) <> Err (Errorf msg)).
  { intros cfg Hd Hs msg.
    rewrite RunQualityTest_stages by (rewrite ?Hs; try discriminate; lia).
    cbv zeta.
    destruct (snd (fst (measureIdleLatency _ _))); [discriminate|].
    destruct (snd (fst (measureUploadSpeed _ _))); discriminate. }
  split; [|split; [|split]].
  - split; [reflexivity|]. apply Hvalid; reflexivity.
  - intros H.
    assert (Hneg : wrap64 (duration * Second) <= 0).
    { unfold wrap64, Second. destruct H as [H|H].
      - rewrite Z.mod_small by lia. lia.
      - replace (duration * 1000000000 + 2 ^ 63)
          with (duration * 1000000000 - 2 ^ 63 + 1 * 2 ^ 64) by lia.
        rewrite Z.mod_add by lia. rewrite Z.mod_small by lia. lia. }
    unfold RunQualityTest. cbn [Cli.mainConfig TestDuration].
    destruct (Z.leb_spec (wrap64 (duration * Second)) 0); [reflexivity | lia].
  - intros H.
    assert (E : wrap64 (duration * Second) = duration * 1000000000).
    { unfold wrap64, Second. rewrite Z.mod_small by lia. lia. }
    cbn [Cli.mainConfig TestDuration]. split; [exact E|].
    apply Hvalid; cbn [Cli.mainConfig TestDuration TestServers]; [|reflexivity].
    rewrite E. lia.
  - reflexivity.
Qed.
